(** * xtool-utilities: convert_xcs_to_svg.py

    A shallow embedding of [convert_xcs_to_svg.py] and the properties its
    specification states about it.

    The script works on the value tree that [json.load] returns, so the
    development has four parts:

    - [Py]: the fragment of the Python object model the script relies on
      (JSON values, the exceptions the built-in operators raise, [dict.get],
      truthiness, arithmetic and comparison on [int]/[float], [str()] as
      used by f-strings, [sorted]);
    - [Xcs]: the functions of the script, one definition per [def], written
      in an error monad so that every raising operation is visible;
    - [Spec]: the notions the specification speaks of (the composition of a
      transform, the box over the visible displays, the stable sort by
      stacking order), written after its sentences;
    - the properties, which relate [Xcs] to [Spec].

    Conventions of the Python layer.  [int] is [Z]; [float] is a binary64
    primitive float; [str] is a [string] whose characters are the code
    points 0..255; a [dict] is an association list in insertion order with
    pairwise distinct keys (as [json.load] builds it; lookup takes the first
    binding).  Object identity and the interpreter's optional limit on the
    number of digits of an integer literal are not modelled. *)

From Stdlib Require Import ZArith List String Ascii Bool Lia Floats.
From Stdlib Require Import Permutation Sorted.
Import ListNotations.

Set Warnings "-register-all".

Local Open Scope string_scope.
Local Open Scope Z_scope.

(* ================================================================== *)
(** * The Python layer *)
(* ================================================================== *)

Module Py.

(** ** Exceptions and the error monad *)

(** The built-in exceptions the operators used by the script can raise.
    All of them derive from [Exception]. *)
Inductive exn : Type :=
| TypeError
| AttributeError
| ValueError
| OverflowError
| ZeroDivisionError
| KeyError.

Inductive result (A : Type) : Type :=
| Ok (a : A)
| Raise (e : exn).
Arguments Ok {A} a.
Arguments Raise {A} e.

Definition bind {A B} (m : result A) (k : A -> result B) : result B :=
  match m with
  | Ok a => k a
  | Raise e => Raise e
  end.

Definition is_ok {A} (m : result A) : bool :=
  match m with Ok _ => true | Raise _ => false end.

Declare Scope py_scope.
Delimit Scope py_scope with py.
Notation "x <- m ;; k" := (bind m (fun x => k))
  (at level 61, m at next level, right associativity) : py_scope.
Notation "' pat <- m ;; k" := (bind m (fun x => match x with pat => k end))
  (at level 61, pat pattern, m at next level, right associativity) : py_scope.
Local Open Scope py_scope.

(** ** Values *)

(** What [json.load] produces: [None], [bool], [int], [float], [str],
    [list] and [dict] with string keys. *)
Inductive pyval : Type :=
| PNone
| PBool (b : bool)
| PInt (n : Z)
| PFloat (f : float)
| PStr (s : string)
| PList (l : list pyval)
| PDict (kv : list (string * pyval)).

(** The numeric tower: [bool] is a subclass of [int]. *)
Inductive num : Type :=
| NInt (n : Z)
| NFloat (f : float).

Definition as_num (v : pyval) : option num :=
  match v with
  | PBool b => Some (NInt (Z.b2z b))
  | PInt n => Some (NInt n)
  | PFloat f => Some (NFloat f)
  | _ => None
  end.

(** [isinstance(v, str)] and [isinstance(v, (int, float))]. *)
Definition isinstance_str (v : pyval) : bool :=
  match v with PStr _ => true | _ => false end.

Definition isinstance_int_float (v : pyval) : bool :=
  match as_num v with Some _ => true | None => false end.

(** ** Dictionaries *)

Fixpoint lookup (key : string) (kv : list (string * pyval)) : option pyval :=
  match kv with
  | [] => None
  | (k, v) :: kv' => if String.eqb k key then Some v else lookup key kv'
  end.

(** [obj.get(key, default)]: only a [dict] has the attribute [get]. *)
Definition get (obj : pyval) (key : string) (default : pyval) : result pyval :=
  match obj with
  | PDict kv =>
      match lookup key kv with
      | Some v => Ok v
      | None => Ok default
      end
  | _ => Raise AttributeError
  end.

(** [obj[key]] with a string key. *)
Definition getitem (obj : pyval) (key : string) : result pyval :=
  match obj with
  | PDict kv =>
      match lookup key kv with
      | Some v => Ok v
      | None => Raise KeyError
      end
  | _ => Raise TypeError
  end.

(** The elements a [for] loop (or [sorted]) draws from [obj]: the items of
    a list, the keys of a dict, the characters of a string. *)
Definition iter (obj : pyval) : result (list pyval) :=
  match obj with
  | PList l => Ok l
  | PDict kv => Ok (map (fun p : string * pyval => PStr (fst p)) kv)
  | PStr s => Ok (map (fun c => PStr (String c "")) (list_ascii_of_string s))
  | _ => Raise TypeError
  end.

(** ** Truthiness: [bool(v)], as tested by [if] and [not]. *)
Definition truthy (v : pyval) : bool :=
  match v with
  | PNone => false
  | PBool b => b
  | PInt n => negb (n =? 0)
  | PFloat f => negb (PrimFloat.eqb f 0)
  | PStr s => negb (String.eqb s "")
  | PList l => match l with [] => false | _ => true end
  | PDict kv => match kv with [] => false | _ => true end
  end.

(** ** Characters and integer formatting *)

Definition chr (n : Z) : ascii := ascii_of_N (Z.to_N n).
Definition ord (c : ascii) : Z := Z.of_N (N_of_ascii c).

(** The digit [d] (0..15) in lower-case hexadecimal. *)
Definition digit_char (d : Z) : ascii :=
  if d <? 10 then chr (48 + d) else chr (87 + d).

(** The digits of [n >= 0] in [base], most significant first, pushed in
    front of [acc].  [fuel] bounds the number of digits. *)
Fixpoint digits_acc (fuel : nat) (base n : Z) (acc : string) : string :=
  match fuel with
  | O => acc
  | S fuel' =>
      let acc' := String (digit_char (n mod base)) acc in
      if n / base =? 0 then acc' else digits_acc fuel' base (n / base) acc'
  end.

Definition digits (base n : Z) : string :=
  digits_acc (S (Z.to_nat (Z.log2 n))) base n "".

(** [str(n)] for an [int]. *)
Definition str_of_int (n : Z) : string :=
  if n <? 0 then "-" ++ digits 10 (- n) else digits 10 n.

Fixpoint repeat_string (n : nat) (s : string) : string :=
  match n with
  | O => ""
  | S n' => s ++ repeat_string n' s
  end.

Definition zeros (n : Z) : string := repeat_string (Z.to_nat n) "0".

(** [format(n, '02x')]: lower-case hexadecimal, sign first, padded with
    zeros to a total width of two. *)
Definition format_02x (n : Z) : string :=
  if n <? 0 then
    let d := digits 16 (- n) in
    "-" ++ zeros (1 - Z.of_nat (String.length d)) ++ d
  else
    let d := digits 16 n in
    zeros (2 - Z.of_nat (String.length d)) ++ d.

(** ** Floats

    A Python [float] is an IEEE 754 binary64 number and its arithmetic is
    the hardware's, rounding to nearest even: the primitive [float].  Exact
    questions (conversion from and to [int], mixed comparison, [repr]) are
    answered on the decoded form [Prim2SF f], a sign, a mantissa and an
    exponent. *)

Definition math_pi : float := 0x1.921fb54442d18p+1%float.
Definition float_inf : float := infinity.

(** [float(n)] for an [int] (the implicit conversion of mixed arithmetic):
    the nearest float, [OverflowError] when it is out of range. *)
Definition float_of_int (n : Z) : result float :=
  match binary_normalize prec emax n 0 false with
  | S754_infinity _ => Raise OverflowError
  | sf => Ok (SF2Prim sf)
  end.

(** [int(f)] for a [float]: truncation towards zero. *)
Definition int_of_float (f : float) : result Z :=
  match Prim2SF f with
  | S754_nan => Raise ValueError
  | S754_infinity _ => Raise OverflowError
  | S754_zero _ => Ok 0
  | S754_finite s m e =>
      let a := if 0 <=? e then Z.shiftl (Zpos m) e else Z.shiftr (Zpos m) (- e) in
      Ok (if s then - a else a)
  end.

(** Exact comparison of a float with an integer; [None] for a NaN. *)
Definition float_compare_int (f : float) (n : Z) : option comparison :=
  match Prim2SF f with
  | S754_nan => None
  | S754_infinity s => Some (if s then Lt else Gt)
  | S754_zero _ => Some (0 ?= n)
  | S754_finite s m e =>
      let sm := if s then Zneg m else Zpos m in
      Some (if 0 <=? e then Z.shiftl sm e ?= n else sm ?= Z.shiftl n (- e))
  end.

(** [n / d] for two [int]s: the correctly rounded quotient. *)
Definition int_truediv (n d : Z) : result float :=
  let sf (z : Z) :=
    match z with
    | Z0 => S754_zero false
    | Zpos p => S754_finite false p 0
    | Zneg p => S754_finite true p 0
    end in
  if d =? 0 then Raise ZeroDivisionError
  else match SFdiv prec emax (sf n) (sf d) with
       | S754_infinity _ => Raise OverflowError
       | q => Ok (SF2Prim q)
       end.

(** *** [repr] of a float

    [repr(f)] is the shortest decimal string that reads back as [f]; among
    the strings of that length, the one nearest to [f].  The value and the
    interval of the reals that round to it are exact dyadic numbers, so the
    search is carried out in [Z]. *)

(** [a * 10^k] against [b * 2^q], for [a, b >= 0]. *)
Definition compare_scaled (a k b q : Z) : comparison :=
  (a * 10 ^ Z.max k 0 * 2 ^ Z.max (- q) 0) ?= (b * 2 ^ Z.max q 0 * 10 ^ Z.max (- k) 0).

(** [floor (m * 2^e / 10^k)]. *)
Definition floor_scaled (m e k : Z) : Z :=
  (m * 2 ^ Z.max e 0 * 10 ^ Z.max (- k) 0) / (2 ^ Z.max (- e) 0 * 10 ^ Z.max k 0).

(** The decimal exponent [x] with [10^x <= m * 2^e < 10^(x+1)]: an estimate
    from the binary logarithm, corrected by at most [fuel] steps. *)
Fixpoint adjust_exp10 (fuel : nat) (m e x : Z) : Z :=
  match fuel with
  | O => x
  | S fuel' =>
      match compare_scaled 1 x m e with
      | Gt => adjust_exp10 fuel' m e (x - 1)
      | _ =>
          match compare_scaled 1 (x + 1) m e with
          | Gt => x
          | _ => adjust_exp10 fuel' m e (x + 1)
          end
      end
  end.

Definition exp10 (m e : Z) : Z :=
  adjust_exp10 4 m e ((Z.log2 m + e) * 30103 / 100000).

(** Does [d * 10^k] round to the float [m * 2^e]?  In units of [2^(e-2)]
    the float is [4m] and the midpoints to its neighbours are [4m - 2]
    ([4m - 1] below a power of two) and [4m + 2]; a midpoint rounds to the
    float when [m] is even. *)
Definition reads_back (m e d k : Z) : bool :=
  let below := if (m =? 2 ^ 52) && (-1074 <? e) then 1 else 2 in
  let lo := compare_scaled d k (4 * m - below) (e - 2) in
  let hi := compare_scaled d k (4 * m + 2) (e - 2) in
  match lo, hi with
  | Gt, Lt => true
  | Eq, _ | _, Eq => Z.even m
  | _, _ => false
  end.

(** The shortest digits: for [n = 1, 2, ...] digits, the two [n]-digit
    decimals around the float are tried.  Returns the digits as an integer
    [d] and the exponent [k], for the decimal [d * 10^k]. *)
Fixpoint shortest (fuel : nat) (m e x n : Z) : Z * Z :=
  let k := x - (n - 1) in
  let d := floor_scaled m e k in
  match fuel with
  | O => (d, k)
  | S fuel' =>
      match reads_back m e d k, reads_back m e (d + 1) k with
      | true, false => (d, k)
      | false, true => (d + 1, k)
      | true, true =>
          match compare_scaled (2 * d + 1) k (2 * m) e with
          | Gt => (d, k)
          | Lt => (d + 1, k)
          | Eq => if Z.even d then (d, k) else (d + 1, k)
          end
      | false, false => shortest fuel' m e x (n + 1)
      end
  end.

Fixpoint strip_zeros (fuel : nat) (d k : Z) : Z * Z :=
  match fuel with
  | O => (d, k)
  | S fuel' => if d mod 10 =? 0 then strip_zeros fuel' (d / 10) (k + 1) else (d, k)
  end.

Definition substring_from (n : nat) (s : string) : string :=
  String.substring n (String.length s - n) s.

(** The layout of [repr]: [ds] are the digits and [decpt] the position of
    the decimal point relative to their start.  Exponent notation is used
    when [decpt <= -4] or [decpt > 16]. *)
Definition float_layout (ds : string) (decpt : Z) : string :=
  let len := Z.of_nat (String.length ds) in
  if (decpt <=? -4) || (16 <? decpt) then
    let x := decpt - 1 in
    let mant :=
      if len =? 1 then ds
      else String.substring 0 1 ds ++ "." ++ substring_from 1 ds in
    let xs := digits 10 (Z.abs x) in
    mant ++ "e" ++ (if x <? 0 then "-" else "+")
         ++ zeros (2 - Z.of_nat (String.length xs)) ++ xs
  else if decpt <=? 0 then "0." ++ zeros (- decpt) ++ ds
  else if len <=? decpt then ds ++ zeros (decpt - len) ++ ".0"
  else String.substring 0 (Z.to_nat decpt) ds ++ "." ++ substring_from (Z.to_nat decpt) ds.

Definition float_repr (f : float) : string :=
  match Prim2SF f with
  | S754_nan => "nan"
  | S754_infinity s => if s then "-inf" else "inf"
  | S754_zero s => if s then "-0.0" else "0.0"
  | S754_finite s m e =>
      let '(d, k) := shortest 17 (Zpos m) e (exp10 (Zpos m) e) 1 in
      let '(d, k) := strip_zeros 17 d k in
      let ds := digits 10 d in
      (if s then "-" else "") ++ float_layout ds (k + Z.of_nat (String.length ds))
  end.

(** ** Strings *)

(** [s.startswith(p)]. *)
Definition startswith (s p : string) : bool := String.prefix p s.

(** [sep.join(l)]. *)
Definition join (sep : string) (l : list string) : string := String.concat sep l.

(** White space as [int] skips it around a number, among the code points
    below 256: the ASCII blanks, and the two blanks of the upper half. *)
Definition is_space (c : ascii) : bool :=
  let n := ord c in
  ((9 <=? n) && (n <=? 13)) || (n =? 32) || (n =? 133) || (n =? 160).

Definition is_digit (c : ascii) : bool :=
  let n := ord c in (48 <=? n) && (n <=? 57).

Fixpoint lstrip (cs : list ascii) : list ascii :=
  match cs with
  | c :: cs' => if is_space c then lstrip cs' else cs
  | [] => []
  end.

Definition strip (cs : list ascii) : list ascii :=
  rev (lstrip (rev (lstrip cs))).

(** Decimal digits, single underscores allowed between two digits. *)
Fixpoint parse_digits (cs : list ascii) (acc : Z) (after_digit : bool) : option Z :=
  match cs with
  | [] => if after_digit then Some acc else None
  | c :: cs' =>
      if is_digit c then parse_digits cs' (10 * acc + (ord c - 48)) true
      else if Ascii.eqb c "_"%char && after_digit then parse_digits cs' acc false
      else None
  end.

(** [int(s)] for a [str]: surrounding white space, an optional sign, then
    the digits; [ValueError] otherwise. *)
Definition int_of_str (s : string) : result Z :=
  let parsed :=
    match strip (list_ascii_of_string s) with
    | "-"%char :: cs => option_map Z.opp (parse_digits cs 0 false)
    | "+"%char :: cs => parse_digits cs 0 false
    | cs => parse_digits cs 0 false
    end in
  match parsed with
  | Some n => Ok n
  | None => Raise ValueError
  end.

(** [int(v)] for the numeric types. *)
Definition int_of_num (a : num) : result Z :=
  match a with
  | NInt n => Ok n
  | NFloat f => int_of_float f
  end.

(** [repr(s)] for a [str]: quoted, with the quote that needs fewer escapes,
    and with the characters that are not printable escaped. *)
Definition escape_char (quote c : ascii) : string :=
  let n := ord c in
  if Ascii.eqb c quote || Ascii.eqb c "\"%char then String "\"%char (String c "")
  else if n =? 9 then "\t"
  else if n =? 10 then "\n"
  else if n =? 13 then "\r"
  else if (n <? 32) || ((127 <=? n) && (n <=? 160)) || (n =? 173)
       then "\x" ++ format_02x n
  else String c "".

Fixpoint contains_char (c : ascii) (s : string) : bool :=
  match s with
  | "" => false
  | String c' s' => Ascii.eqb c c' || contains_char c s'
  end.

Definition repr_str (s : string) : string :=
  let quote : ascii :=
    if contains_char "'"%char s && negb (contains_char (chr 34) s) then chr 34 else "'"%char in
  String quote (String.concat "" (map (escape_char quote) (list_ascii_of_string s)))
    ++ String quote "".

(** ** [repr] and [str]

    An f-string field [{v}] without a format specification is [str(v)]. *)
Fixpoint repr (v : pyval) : string :=
  match v with
  | PNone => "None"
  | PBool b => if b then "True" else "False"
  | PInt n => str_of_int n
  | PFloat f => float_repr f
  | PStr s => repr_str s
  | PList l => "[" ++ join ", " (map repr l) ++ "]"
  | PDict kv =>
      "{" ++ join ", "
               (map (fun p : string * pyval =>
                       let (k, x) := p in repr_str k ++ ": " ++ repr x) kv)
          ++ "}"
  end.

Definition str (v : pyval) : string :=
  match v with
  | PStr s => s
  | _ => repr v
  end.

(** ** Equality and ordering *)

Definition num_eq (a b : num) : bool :=
  match a, b with
  | NInt m, NInt n => m =? n
  | NFloat f, NFloat g => PrimFloat.eqb f g
  | NInt n, NFloat f | NFloat f, NInt n =>
      match float_compare_int f n with Some Eq => true | _ => false end
  end.

Definition num_lt (a b : num) : bool :=
  match a, b with
  | NInt m, NInt n => m <? n
  | NFloat f, NFloat g => PrimFloat.ltb f g
  | NInt n, NFloat f =>
      match float_compare_int f n with Some Gt => true | _ => false end
  | NFloat f, NInt n =>
      match float_compare_int f n with Some Lt => true | _ => false end
  end.

(** [v == w].  Numbers compare by value across [bool], [int] and [float];
    lists element by element; dicts as maps.  It never raises. *)
Fixpoint py_eq (v w : pyval) {struct v} : bool :=
  match v, w with
  | PNone, PNone => true
  | PStr s, PStr t => String.eqb s t
  | PList l, PList l' =>
      (fix go (l l' : list pyval) : bool :=
         match l, l' with
         | [], [] => true
         | x :: l, y :: l' => py_eq x y && go l l'
         | _, _ => false
         end) l l'
  | PDict kv, PDict kv' =>
      (List.length kv =? List.length kv')%nat &&
      (fix go (kv : list (string * pyval)) : bool :=
         match kv with
         | [] => true
         | (k, x) :: kv =>
             match lookup k kv' with
             | Some y => py_eq x y && go kv
             | None => false
             end
         end) kv
  | _, _ =>
      match as_num v, as_num w with
      | Some a, Some b => num_eq a b
      | _, _ => false
      end
  end.

Definition py_ne (v w : pyval) : bool := negb (py_eq v w).

(** [v < w]: defined between numbers, between strings (by code points)
    and between lists (at the first pair of elements that differ);
    [TypeError] for every other pair of types. *)
Fixpoint py_lt (v w : pyval) {struct v} : result bool :=
  match v, w with
  | PStr s, PStr t => Ok (String.ltb s t)
  | PList l, PList l' =>
      (fix go (l l' : list pyval) : result bool :=
         match l, l' with
         | [], [] => Ok false
         | [], _ :: _ => Ok true
         | _ :: _, [] => Ok false
         | x :: l, y :: l' => if py_eq x y then go l l' else py_lt x y
         end) l l'
  | _, _ =>
      match as_num v, as_num w with
      | Some a, Some b => Ok (num_lt a b)
      | _, _ => Raise TypeError
      end
  end.

(** [v > w] is [w < v] for the built-in types. *)
Definition py_gt (v w : pyval) : result bool := py_lt w v.

(** [min(a, b)] and [max(a, b)]: the first argument is kept unless the
    second is strictly smaller (greater). *)
Definition py_min (a b : pyval) : result pyval :=
  c <- py_lt b a ;; Ok (if c then b else a).

Definition py_max (a b : pyval) : result pyval :=
  c <- py_gt b a ;; Ok (if c then b else a).

(** ** Arithmetic *)

Definition to_float (a : num) : result float :=
  match a with
  | NInt n => float_of_int n
  | NFloat f => Ok f
  end.

(** A binary operator on numbers: exact on two [int]s, otherwise on the
    operands converted to [float], the left one first. *)
Definition arith (on_int : Z -> Z -> result pyval)
    (on_float : float -> float -> result pyval) (a b : num) : result pyval :=
  match a, b with
  | NInt m, NInt n => on_int m n
  | _, _ => x <- to_float a ;; y <- to_float b ;; on_float x y
  end.

Definition repeat_list (n : nat) (l : list pyval) : list pyval :=
  List.concat (List.repeat l n).

(** The repetition count of a sequence must fit a machine index.  (The
    memory a long result needs is not modelled.) *)
Definition repeat_count (n : Z) : result nat :=
  if (- 2 ^ 63 <=? n) && (n <? 2 ^ 63) then Ok (Z.to_nat n) else Raise OverflowError.

(** [v * w]; a sequence times an [int] is the sequence repeated. *)
Definition py_mul (v w : pyval) : result pyval :=
  match as_num v, as_num w with
  | Some a, Some b =>
      arith (fun m n => Ok (PInt (m * n))) (fun x y => Ok (PFloat (x * y))) a b
  | _, _ =>
      match v, as_num w, as_num v, w with
      | PStr s, Some (NInt n), _, _ | _, _, Some (NInt n), PStr s =>
          c <- repeat_count n ;; Ok (PStr (repeat_string c s))
      | PList l, Some (NInt n), _, _ | _, _, Some (NInt n), PList l =>
          c <- repeat_count n ;; Ok (PList (repeat_list c l))
      | _, _, _, _ => Raise TypeError
      end
  end.

(** [v + w]. *)
Definition py_add (v w : pyval) : result pyval :=
  match as_num v, as_num w with
  | Some a, Some b =>
      arith (fun m n => Ok (PInt (m + n))) (fun x y => Ok (PFloat (x + y))) a b
  | _, _ =>
      match v, w with
      | PStr s, PStr t => Ok (PStr (s ++ t))
      | PList l, PList l' => Ok (PList (l ++ l'))
      | _, _ => Raise TypeError
      end
  end.

(** [v - w]. *)
Definition py_sub (v w : pyval) : result pyval :=
  match as_num v, as_num w with
  | Some a, Some b =>
      arith (fun m n => Ok (PInt (m - n))) (fun x y => Ok (PFloat (x - y))) a b
  | _, _ => Raise TypeError
  end.

(** [v / w]: true division, always a [float]. *)
Definition py_truediv (v w : pyval) : result pyval :=
  match as_num v, as_num w with
  | Some a, Some b =>
      arith (fun m n => q <- int_truediv m n ;; Ok (PFloat q))
            (fun x y => if PrimFloat.eqb y 0 then Raise ZeroDivisionError
                        else Ok (PFloat (x / y)))
            a b
  | _, _ => Raise TypeError
  end.

(** [-v] and [abs(v)]. *)
Definition py_neg (v : pyval) : result pyval :=
  match as_num v with
  | Some (NInt n) => Ok (PInt (- n))
  | Some (NFloat f) => Ok (PFloat (- f))
  | None => Raise TypeError
  end.

Definition py_abs (v : pyval) : result pyval :=
  match as_num v with
  | Some (NInt n) => Ok (PInt (Z.abs n))
  | Some (NFloat f) => Ok (PFloat (PrimFloat.abs f))
  | None => Raise TypeError
  end.

(** ** [sorted(l, key=f)]

    The keys are computed first, one call per element, then the elements
    are ordered with [<] on the keys alone.  The model is the stable
    insertion sort; it is what CPython's merge sort returns whenever [<]
    orders the keys (in particular for [int] keys). *)
Section Sorted.
Context {A : Type}.

Fixpoint insert (kx : pyval) (x : A) (l : list (pyval * A))
  : result (list (pyval * A)) :=
  match l with
  | [] => Ok [(kx, x)]
  | (ky, y) :: l' =>
      c <- py_lt ky kx ;;
      if c then r <- insert kx x l' ;; Ok ((ky, y) :: r)
      else Ok ((kx, x) :: (ky, y) :: l')
  end.

Fixpoint sort_keyed (l : list (pyval * A)) : result (list (pyval * A)) :=
  match l with
  | [] => Ok []
  | (kx, x) :: l' => r <- sort_keyed l' ;; insert kx x r
  end.

Fixpoint decorate (key : A -> result pyval) (l : list A)
  : result (list (pyval * A)) :=
  match l with
  | [] => Ok []
  | x :: l' => k <- key x ;; r <- decorate key l' ;; Ok ((k, x) :: r)
  end.

Definition sorted (l : list A) (key : A -> result pyval) : result (list A) :=
  keyed <- decorate key l ;;
  r <- sort_keyed keyed ;;
  Ok (map snd r).
End Sorted.

End Py.

(* ================================================================== *)
(** * The script *)
(* ================================================================== *)

Module Xcs.
Import Py.
Local Open Scope py_scope.

(** The double quote, and a value between double quotes as the markup
    templates write it. *)
Definition dq : string := String (chr 34) "".
Definition quoted (s : string) : string := dq ++ s ++ dq.
Definition nl : string := String (chr 10) "".

(** [l.append(x)], as the new value of [l]. *)
Definition append {A} (l : list A) (x : A) : list A := (l ++ [x])%list.

(** ** [int_color_to_hex] *)

Definition int_color_to_hex (color_val : pyval) : result string :=
  (* the second [if] of the body, reached with the possibly rebound value *)
  let numeric (color_val : pyval) : result string :=
    match as_num color_val with
    | Some a =>
        color_val <- int_of_num a ;;
        let r := Z.land (Z.shiftr color_val 16) 0xFF in
        let g := Z.land (Z.shiftr color_val 8) 0xFF in
        let b := Z.land color_val 0xFF in
        Ok ("#" ++ format_02x r ++ format_02x g ++ format_02x b)
    | None => Ok "#000000"
    end in
  match color_val with
  | PStr s =>
      if startswith s "#" then Ok s
      else match int_of_str s with
           | Ok n => numeric (PInt n)
           | Raise _ => Ok s
           end
  | _ => numeric color_val
  end.

(** ** [get_fill_color] *)

Definition get_fill_color (display : pyval) : result string :=
  fill <- get display "fill" (PDict []) ;;
  visible <- get fill "visible" (PBool false) ;;
  if negb (truthy visible) then Ok "none"
  else
    color <- get fill "color" (PInt 0) ;;
    alpha <- get fill "alpha" (PInt 1) ;;
    hex_color <- int_color_to_hex color ;;
    c <- py_lt alpha (PInt 1) ;;
    if c then Ok hex_color else Ok hex_color.

(** ** [get_stroke_props] *)

(** The dict the function returns, with its five fixed keys. *)
Record stroke_props : Type := {
  sp_color : string;
  sp_width : pyval;
  sp_alpha : pyval;
  sp_cap : pyval;
  sp_join : pyval
}.

Definition get_stroke_props (display : pyval) : result (option stroke_props) :=
  stroke <- get display "stroke" (PDict []) ;;
  visible <- get stroke "visible" (PBool false) ;;
  if negb (truthy visible) then Ok None
  else
    color <- get stroke "color" (PInt 0) ;;
    alpha <- get stroke "alpha" (PInt 1) ;;
    width <- get stroke "width" (PInt 1) ;;
    cap <- get stroke "cap" (PStr "butt") ;;
    join <- get stroke "join" (PStr "miter") ;;
    hex <- int_color_to_hex color ;;
    Ok (Some {| sp_color := hex; sp_width := width; sp_alpha := alpha;
                sp_cap := cap; sp_join := join |}).

(** ** [build_transform] *)

(** The list [transforms] as it stands at the [return]. *)
Definition transforms_of (display : pyval) : result (list string) :=
  x <- get display "x" (PInt 0) ;;
  y <- get display "y" (PInt 0) ;;
  angle <- get display "angle" (PInt 0) ;;
  scale <- get display "scale" (PDict [("x", PInt 1); ("y", PInt 1)]) ;;
  sx <- get scale "x" (PInt 1) ;;
  sy <- get scale "y" (PInt 1) ;;
  let transforms := ["translate(" ++ str x ++ ", " ++ str y ++ ")"] in
  transforms <-
    (if py_ne angle (PInt 0) then
       a <- py_abs angle ;;
       two_pi <- py_mul (PInt 2) (PFloat math_pi) ;;
       c <- py_gt a two_pi ;;
       angle_deg <- (if c then t <- py_mul angle (PInt 180) ;; py_truediv t (PFloat math_pi)
                     else Ok angle) ;;
       (* xTool uses radians *)
       t <- py_mul angle (PInt 180) ;;
       angle_deg <- py_truediv t (PFloat math_pi) ;;
       Ok (append transforms ("rotate(" ++ str angle_deg ++ ")"))
     else Ok transforms) ;;
  let transforms :=
    if py_ne sx (PInt 1) || py_ne sy (PInt 1)
    then append transforms ("scale(" ++ str sx ++ ", " ++ str sy ++ ")")
    else transforms in
  Ok transforms.

Definition build_transform (display : pyval) : result string :=
  transforms <- transforms_of display ;;
  Ok (join " " transforms).

(** ** [render_path] *)

Definition render_path (display : pyval) : result string :=
  dpath <- get display "dPath" (PStr "") ;;
  if negb (truthy dpath) then Ok ""
  else
    transform <- build_transform display ;;
    fill <- get_fill_color display ;;
    stroke_props <- get_stroke_props display ;;
    fill_rule <- get display "fillRule" (PStr "nonzero") ;;
    let attrs := ["d=" ++ quoted (str dpath)] in
    let attrs := append attrs ("fill=" ++ quoted fill) in
    let attrs :=
      if truthy fill_rule then append attrs ("fill-rule=" ++ quoted (str fill_rule))
      else attrs in
    attrs <-
      match stroke_props with
      | Some sp =>
          let attrs := append attrs ("stroke=" ++ quoted (sp_color sp)) in
          let attrs := append attrs ("stroke-width=" ++ quoted (str (sp_width sp))) in
          let attrs := append attrs ("stroke-linecap=" ++ quoted (str (sp_cap sp))) in
          let attrs := append attrs ("stroke-linejoin=" ++ quoted (str (sp_join sp))) in
          c <- py_lt (sp_alpha sp) (PInt 1) ;;
          Ok (if c then append attrs ("stroke-opacity=" ++ quoted (str (sp_alpha sp)))
              else attrs)
      | None => Ok (append attrs ("stroke=" ++ quoted "none"))
      end ;;
    fill_obj <- get display "fill" (PDict []) ;;
    alpha <- get fill_obj "alpha" (PInt 1) ;;
    c <- py_lt alpha (PInt 1) ;;
    attrs <-
      (if c then
         alpha <- getitem fill_obj "alpha" ;;
         Ok (append attrs ("fill-opacity=" ++ quoted (str alpha)))
       else Ok attrs) ;;
    Ok ("<path transform=" ++ quoted transform ++ " " ++ join " " attrs ++ " />").

(** ** [render_rect] *)

Definition render_rect (display : pyval) : result string :=
  w <- get display "width" (PInt 0) ;;
  h <- get display "height" (PInt 0) ;;
  r <- get display "radius" (PInt 0) ;;
  transform <- build_transform display ;;
  fill <- get_fill_color display ;;
  stroke_props <- get_stroke_props display ;;
  x0 <- (t <- py_neg w ;; py_truediv t (PInt 2)) ;;
  y0 <- (t <- py_neg h ;; py_truediv t (PInt 2)) ;;
  let attrs := ["x=" ++ quoted (str x0) ++ " y=" ++ quoted (str y0)
                ++ " width=" ++ quoted (str w) ++ " height=" ++ quoted (str h)] in
  c <- py_gt r (PInt 0) ;;
  let attrs :=
    if c then append attrs ("rx=" ++ quoted (str r) ++ " ry=" ++ quoted (str r))
    else attrs in
  let attrs := append attrs ("fill=" ++ quoted fill) in
  let attrs :=
    match stroke_props with
    | Some sp =>
        let attrs := append attrs ("stroke=" ++ quoted (sp_color sp)) in
        append attrs ("stroke-width=" ++ quoted (str (sp_width sp)))
    | None => append attrs ("stroke=" ++ quoted "none")
    end in
  Ok ("<rect transform=" ++ quoted transform ++ " " ++ join " " attrs ++ " />").

(** ** [render_line] *)

(** The stroke substituted when the display declares none. *)
Definition default_stroke : stroke_props :=
  {| sp_color := "#000000"; sp_width := PInt 1; sp_cap := PStr "butt";
     sp_join := PStr "miter"; sp_alpha := PInt 1 |}.

Definition render_line (display : pyval) : result string :=
  endpoint <- get display "endPoint" (PDict []) ;;
  x2 <- get endpoint "x" (PInt 0) ;;
  y2 <- get endpoint "y" (PInt 0) ;;
  transform <- build_transform display ;;
  stroke_props <- get_stroke_props display ;;
  let stroke_props :=
    match stroke_props with
    | None => default_stroke
    | Some sp => sp
    end in
  let attrs := ["x1=" ++ quoted "0" ++ " y1=" ++ quoted "0"
                ++ " x2=" ++ quoted (str x2) ++ " y2=" ++ quoted (str y2)] in
  let attrs := append attrs ("stroke=" ++ quoted (sp_color stroke_props)) in
  let attrs := append attrs ("stroke-width=" ++ quoted (str (sp_width stroke_props))) in
  Ok ("<line transform=" ++ quoted transform ++ " " ++ join " " attrs ++ " />").

(** ** [render_bitmap] *)

Definition render_bitmap (display : pyval) : result string :=
  b64 <- get display "base64" (PStr "") ;;
  if negb (truthy b64) then Ok ""
  else
    w <- get display "width" (PInt 0) ;;
    h <- get display "height" (PInt 0) ;;
    transform <- build_transform display ;;
    x0 <- (t <- py_neg w ;; py_truediv t (PInt 2)) ;;
    y0 <- (t <- py_neg h ;; py_truediv t (PInt 2)) ;;
    Ok ("<image transform=" ++ quoted transform
        ++ " x=" ++ quoted (str x0) ++ " y=" ++ quoted (str y0)
        ++ " width=" ++ quoted (str w) ++ " height=" ++ quoted (str h)
        ++ " href=" ++ quoted (str b64) ++ " />").

(** ** [render_text] *)

Definition render_text (display : pyval) : result string :=
  char_jsons <- get display "charJSONs" (PList []) ;;
  text_content <- get display "text" (PStr "") ;;
  transform <- build_transform display ;;
  fill <- get_fill_color display ;;
  style <- get display "style" (PDict []) ;;
  font_size <- get style "fontSize" (PInt 12) ;;
  font_family <- get style "fontFamily" (PStr "sans-serif") ;;
  w <- get display "width" (PInt 0) ;;
  h <- get display "height" (PInt 0) ;;
  let attrs := ["font-size=" ++ quoted (str font_size);
                "font-family=" ++ quoted (str font_family)] in
  let attrs := append attrs ("fill=" ++ quoted fill) in
  Ok ("<text transform=" ++ quoted transform ++ " " ++ join " " attrs ++ ">"
      ++ str text_content ++ "</text>").

(** ** [convert_canvas_to_svg] *)

(** The running box [(min_x, min_y, max_x, max_y)] of the first loop. *)
Definition box : Type := pyval * pyval * pyval * pyval.

Definition empty_box : box :=
  (PFloat float_inf, PFloat float_inf, PFloat (- float_inf), PFloat (- float_inf)).

(** One iteration of the bounding-box loop. *)
Definition bounds_step (b : box) (d : pyval) : result box :=
  let '(min_x, min_y, max_x, max_y) := b in
  visible <- get d "visible" (PBool true) ;;
  if negb (truthy visible) then Ok b
  else
    x <- get d "x" (PInt 0) ;;
    y <- get d "y" (PInt 0) ;;
    w <- get d "width" (PInt 0) ;;
    h <- get d "height" (PInt 0) ;;
    sx <- (s <- get d "scale" (PDict []) ;; v <- get s "x" (PInt 1) ;; py_abs v) ;;
    sy <- (s <- get d "scale" (PDict []) ;; v <- get s "y" (PInt 1) ;; py_abs v) ;;
    (* Estimate bounds *)
    half_w <- (t <- py_mul w sx ;; t <- py_truediv t (PInt 2) ;; py_add t (PInt 1)) ;;
    half_h <- (t <- py_mul h sy ;; t <- py_truediv t (PInt 2) ;; py_add t (PInt 1)) ;;
    min_x <- (t <- py_sub x half_w ;; py_min min_x t) ;;
    min_y <- (t <- py_sub y half_h ;; py_min min_y t) ;;
    max_x <- (t <- py_add x half_w ;; py_max max_x t) ;;
    max_y <- (t <- py_add y half_h ;; py_max max_y t) ;;
    Ok (min_x, min_y, max_x, max_y).

Fixpoint bounds_loop (b : box) (displays : list pyval) : result box :=
  match displays with
  | [] => Ok b
  | d :: displays' => b' <- bounds_step b d ;; bounds_loop b' displays'
  end.

(** The line one failed shape leaves on the error stream: the kind of the
    shape and the exception. *)
Inductive warning : Type :=
| Failed_to_render (dtype : pyval) (e : exn).

(** The body of the [try]: [None] is the [continue] of the last branch. *)
Definition render_dispatch (dtype d : pyval) : result (option string) :=
  if py_eq dtype (PStr "PATH") then el <- render_path d ;; Ok (Some el)
  else if py_eq dtype (PStr "RECT") then el <- render_rect d ;; Ok (Some el)
  else if py_eq dtype (PStr "LINE") then el <- render_line d ;; Ok (Some el)
  else if py_eq dtype (PStr "BITMAP") then el <- render_bitmap d ;; Ok (Some el)
  else if py_eq dtype (PStr "TEXT") then el <- render_text d ;; Ok (Some el)
  else Ok None.

(** The rendering loop, threading [elements] and the error stream. *)
Fixpoint render_loop (sorted_displays : list pyval)
    (elements : list string) (stderr : list warning)
  : result (list string * list warning) :=
  match sorted_displays with
  | [] => Ok (elements, stderr)
  | d :: rest =>
      visible <- get d "visible" (PBool true) ;;
      if negb (truthy visible) then render_loop rest elements stderr
      else
        dtype <- get d "type" (PStr "") ;;
        match render_dispatch dtype d with
        | Ok (Some el) =>
            if truthy (PStr el) then render_loop rest (append elements el) stderr
            else render_loop rest elements stderr
        | Ok None => render_loop rest elements stderr
        | Raise e => render_loop rest elements (append stderr (Failed_to_render dtype e))
        end
  end.

(** The document: the header with the viewport, one line per element. *)
Definition svg_document (min_x min_y vw vh : pyval) (canvas_index : Z)
    (title : pyval) (elements : list string) : string :=
  "<?xml version=" ++ quoted "1.0" ++ " encoding=" ++ quoted "UTF-8" ++ "?>" ++ nl
  ++ "<svg xmlns=" ++ quoted "http://www.w3.org/2000/svg"
  ++ " xmlns:xlink=" ++ quoted "http://www.w3.org/1999/xlink" ++ nl
  ++ "     viewBox="
  ++ quoted (str min_x ++ " " ++ str min_y ++ " " ++ str vw ++ " " ++ str vh) ++ nl
  ++ "     width=" ++ quoted (str vw ++ "mm") ++ " height=" ++ quoted (str vh ++ "mm") ++ ">" ++ nl
  ++ "  <title>Canvas " ++ str_of_int canvas_index ++ ": " ++ str title ++ "</title>" ++ nl
  ++ String.concat "" (map (fun el => "  " ++ el ++ nl) elements)
  ++ "</svg>" ++ nl.

(** The function returns the document or [None]; the second component is
    what it printed on the error stream. *)
Definition convert_canvas_to_svg (canvas : pyval) (canvas_index : Z)
  : result (option string * list warning) :=
  displays <- get canvas "displays" (PList []) ;;
  if negb (truthy displays) then Ok (None, [])
  else
    (* Determine bounding box *)
    ds <- iter displays ;;
    '(min_x, min_y, max_x, max_y) <- bounds_loop empty_box ds ;;
    if py_eq min_x (PFloat float_inf) then Ok (None, [])
    else
      let padding := PInt 2 in
      min_x <- py_sub min_x padding ;;
      min_y <- py_sub min_y padding ;;
      max_x <- py_add max_x padding ;;
      max_y <- py_add max_y padding ;;
      vw <- py_sub max_x min_x ;;
      vh <- py_sub max_y min_y ;;
      (* Sort by zOrder *)
      sorted_displays <- (ds <- iter displays ;; sorted ds (fun d => get d "zOrder" (PInt 0))) ;;
      '(elements, stderr) <- render_loop sorted_displays [] [] ;;
      match elements with
      | [] => Ok (None, stderr)
      | _ =>
          title <- get canvas "title" (PStr "untitled") ;;
          Ok (Some (svg_document min_x min_y vw vh canvas_index title elements), stderr)
      end.

(** ** [main]: the count of visible displays it reports *)

Fixpoint visible_count (displays : list pyval) : result Z :=
  match displays with
  | [] => Ok 0
  | d :: displays' =>
      visible <- get d "visible" (PBool true) ;;
      n <- visible_count displays' ;;
      Ok (if truthy visible then 1 + n else n)
  end.

End Xcs.

(* ================================================================== *)
(** * Vocabulary of the specification *)
(* ================================================================== *)

(** These definitions follow the sentences of the specification, not the
    control flow of the script: section 4.1 for colors, 4.4 for transforms,
    4.5 for the shapes, 4.6 for the bounding box and 4.7 for the assembly
    of a canvas. *)
Module Spec.
Import Py Xcs.
Local Open Scope py_scope.

(** The value of a field of a record, with the default that stands for an
    absent field. *)
Definition field (key : string) (default : pyval) (kv : list (string * pyval)) : pyval :=
  match lookup key kv with
  | Some v => v
  | None => default
  end.

Definition is_dict (v : pyval) : Prop :=
  match v with PDict _ => True | _ => False end.

(** ** Colors *)

Definition hex_value (c : ascii) : option Z :=
  let n := ord c in
  if (48 <=? n) && (n <=? 57) then Some (n - 48)
  else if (97 <=? n) && (n <=? 102) then Some (n - 87)
  else if (65 <=? n) && (n <=? 70) then Some (n - 55)
  else None.

Fixpoint int_base16_acc (s : string) (acc : Z) : option Z :=
  match s with
  | "" => Some acc
  | String c s' =>
      match hex_value c with
      | Some d => int_base16_acc s' (16 * acc + d)
      | None => None
      end
  end.

(** Re-parsing a run of hexadecimal digits as a base-16 integer. *)
Definition int_base16 (s : string) : option Z :=
  match s with
  | "" => None
  | _ => int_base16_acc s 0
  end.

Fixpoint all_hex (s : string) : bool :=
  match s with
  | "" => true
  | String c s' => (match hex_value c with Some _ => true | None => false end) && all_hex s'
  end.

(** ** Transforms *)

(** Radians to degrees, [angle * 180 / pi]. *)
Definition degrees (angle : pyval) : result pyval :=
  t <- py_mul angle (PInt 180) ;; py_truediv t (PFloat math_pi).

Definition translation (x y : pyval) : string :=
  "translate(" ++ str x ++ ", " ++ str y ++ ")".

Definition rotation (deg : pyval) : string :=
  "rotate(" ++ str deg ++ ")".

Definition scaling (sx sy : pyval) : string :=
  "scale(" ++ str sx ++ ", " ++ str sy ++ ")".

(** The composition of section 4.4: the translation always; the rotation
    when the angle is not zero; the scale when it is not [(1, 1)]. *)
Definition composed (x y angle sx sy : pyval) : result (list string) :=
  rot <- (if py_ne angle (PInt 0)
          then deg <- degrees angle ;; Ok [rotation deg]
          else Ok []) ;;
  let sc := if py_ne sx (PInt 1) || py_ne sy (PInt 1) then [scaling sx sy] else [] in
  Ok ([translation x y] ++ rot ++ sc)%list.

(** The six placement fields of a display record. *)
Definition unit_scale : pyval := PDict [("x", PInt 1); ("y", PInt 1)].
Definition scale_of (kv : list (string * pyval)) : pyval := field "scale" unit_scale kv.

(** ** Shapes *)

(** [-w / 2]: the local coordinate that centres an extent [w] on the
    origin. *)
Definition centred (w : pyval) : result pyval :=
  t <- py_neg w ;; py_truediv t (PInt 2).

Definition stroke_attributes (stroke : option stroke_props) : list string :=
  match stroke with
  | Some sp => ["stroke=" ++ quoted (sp_color sp);
                "stroke-width=" ++ quoted (str (sp_width sp))]
  | None => ["stroke=" ++ quoted "none"]
  end.

(** The attributes of a rectangle whose corner is [(x0, y0)]; [corner] is
    the corner radius when one is emitted. *)
Definition rect_attributes (x0 y0 w h : pyval) (corner : option pyval)
    (fill : string) (stroke : option stroke_props) : list string :=
  List.app
    ["x=" ++ quoted (str x0) ++ " y=" ++ quoted (str y0)
     ++ " width=" ++ quoted (str w) ++ " height=" ++ quoted (str h)]
    (List.app
       match corner with
       | Some r => ["rx=" ++ quoted (str r) ++ " ry=" ++ quoted (str r)]
       | None => []
       end
       (("fill=" ++ quoted fill) :: stroke_attributes stroke)).

(** The attributes of a line from the local origin to [(x2, y2)]. *)
Definition line_attributes (x2 y2 : pyval) (stroke : stroke_props) : list string :=
  ["x1=" ++ quoted "0" ++ " y1=" ++ quoted "0"
   ++ " x2=" ++ quoted (str x2) ++ " y2=" ++ quoted (str y2);
   "stroke=" ++ quoted (sp_color stroke);
   "stroke-width=" ++ quoted (str (sp_width stroke))].

Definition element (tag transform : string) (attrs : list string) : string :=
  "<" ++ tag ++ " transform=" ++ quoted transform ++ " " ++ join " " attrs ++ " />".

(** The stroke sub-record is absent, or present and not visible. *)
Definition stroke_hidden (kv : list (string * pyval)) : Prop :=
  exists skv, field "stroke" (PDict []) kv = PDict skv
              /\ truthy (field "visible" (PBool false) skv) = false.

(** ** Canvases *)

(** A display takes part when its visibility flag is absent or true. *)
Definition visible (d : pyval) : bool :=
  match d with
  | PDict kv => truthy (field "visible" (PBool true) kv)
  | _ => false
  end.

Definition kind (d : pyval) : pyval :=
  match d with
  | PDict kv => field "type" (PStr "") kv
  | _ => PNone
  end.

(** What the mapping of one display adds to the element list and to the
    error stream. *)
Definition contribution (d : pyval) : list string * list warning :=
  match render_dispatch (kind d) d with
  | Ok (Some el) => (if truthy (PStr el) then [el] else [], [])
  | Ok None => ([], [])
  | Raise e => ([], [Failed_to_render (kind d) e])
  end.

Definition shape_elements (d : pyval) : list string := fst (contribution d).
Definition shape_warnings (d : pyval) : list warning := snd (contribution d).

(** The one of the five kinds a display declares, if any. *)
Definition recognized (dtype : pyval) : bool :=
  py_eq dtype (PStr "PATH") || py_eq dtype (PStr "RECT") || py_eq dtype (PStr "LINE")
  || py_eq dtype (PStr "BITMAP") || py_eq dtype (PStr "TEXT").

(** *** Stacking order *)

(** The stacking order of a display, 0 when it declares none. *)
Definition z_order (d : pyval) : Z :=
  match d with
  | PDict kv => match field "zOrder" (PInt 0) kv with PInt n => n | _ => 0 end
  | _ => 0
  end.

(** A display whose [zOrder] is absent or an integer. *)
Definition integer_z_order (d : pyval) : Prop :=
  match d with
  | PDict kv => match field "zOrder" (PInt 0) kv with PInt _ => True | _ => False end
  | _ => False
  end.

(** The stable sort by an integer key: each element is put in front of the
    first element whose key is not smaller. *)
Fixpoint insert_by {A} (key : A -> Z) (x : A) (l : list A) : list A :=
  match l with
  | [] => [x]
  | y :: l' => if key y <? key x then y :: insert_by key x l' else x :: y :: l'
  end.

Fixpoint sort_by {A} (key : A -> Z) (l : list A) : list A :=
  match l with
  | [] => []
  | x :: l' => insert_by key x (sort_by key l')
  end.

(** *** Bounding box *)

(** [size * scale / 2 + 1], half the scaled extent plus the allowance for
    the stroke. *)
Definition half_extent (size scale : pyval) : result pyval :=
  t <- py_mul size scale ;; t <- py_truediv t (PInt 2) ;; py_add t (PInt 1).

(** The box [b] grown to hold [x -/+ half_w] and [y -/+ half_h] of one
    display.  Nothing but position, size and scale is read. *)
Definition grow (b : box) (kv : list (string * pyval)) : result box :=
  let '(min_x, min_y, max_x, max_y) := b in
  let x := field "x" (PInt 0) kv in
  let y := field "y" (PInt 0) kv in
  let w := field "width" (PInt 0) kv in
  let h := field "height" (PInt 0) kv in
  let scale := field "scale" (PDict []) kv in
  sx <- (v <- get scale "x" (PInt 1) ;; py_abs v) ;;
  sy <- (v <- get scale "y" (PInt 1) ;; py_abs v) ;;
  half_w <- half_extent w sx ;;
  half_h <- half_extent h sy ;;
  min_x <- (lo <- py_sub x half_w ;; py_min min_x lo) ;;
  min_y <- (lo <- py_sub y half_h ;; py_min min_y lo) ;;
  max_x <- (hi <- py_add x half_w ;; py_max max_x hi) ;;
  max_y <- (hi <- py_add y half_h ;; py_max max_y hi) ;;
  Ok (min_x, min_y, max_x, max_y).

(** The running min/max over a list of displays. *)
Fixpoint accumulate (b : box) (ds : list pyval) : result box :=
  match ds with
  | [] => Ok b
  | PDict kv :: ds' => b' <- grow b kv ;; accumulate b' ds'
  | _ :: _ => Raise AttributeError
  end.

(** The viewport [(x, y, width, height)] of a box: the box with 2 units
    added on every side. *)
Definition viewport (b : box) : result (pyval * pyval * pyval * pyval) :=
  let '(min_x, min_y, max_x, max_y) := b in
  left <- py_sub min_x (PInt 2) ;;
  top <- py_sub min_y (PInt 2) ;;
  right <- py_add max_x (PInt 2) ;;
  bottom <- py_add max_y (PInt 2) ;;
  vw <- py_sub right left ;;
  vh <- py_sub bottom top ;;
  Ok (left, top, vw, vh).

(** The key [sorted] is called with. *)
Definition z_key (d : pyval) : result pyval := get d "zOrder" (PInt 0).

(** Order by a key, each element against all that follow it. *)
Definition ascending {A} (key : A -> Z) : list A -> Prop :=
  StronglySorted (fun a b => key a <= key b).

(** A box of four floats. *)
Definition float_box (b : box) : Prop :=
  exists x0 y0 x1 y1, b = (PFloat x0, PFloat y0, PFloat x1, PFloat y1).

(** The document of a canvas: none without elements. *)
Definition document (vp : pyval * pyval * pyval * pyval) (canvas_index : Z)
    (title : pyval) (elements : list string) : option string :=
  match elements with
  | [] => None
  | _ => let '(vx, vy, vw, vh) := vp in
         Some (svg_document vx vy vw vh canvas_index title elements)
  end.

(** ** Sample data *)

(** A line of [zOrder] 5, a rectangle without [zOrder], a rectangle of
    [zOrder] 1 whose radius is not a number, and a hidden text. *)
Definition sample_line : pyval :=
  PDict [("type", PStr "LINE"); ("x", PFloat 1.5); ("y", PInt 5);
         ("angle", PFloat (math_pi / 2)); ("scale", PDict [("x", PInt 2)]);
         ("endPoint", PDict [("x", PInt 3); ("y", PFloat 4.25)]); ("zOrder", PInt 5)].

Definition sample_rect : pyval :=
  PDict [("type", PStr "RECT"); ("x", PInt 5); ("y", PInt 5);
         ("width", PInt 10); ("height", PInt 4)].

Definition sample_broken_rect : pyval :=
  PDict [("type", PStr "RECT"); ("radius", PStr "a"); ("zOrder", PInt 1)].

Definition sample_hidden_text : pyval :=
  PDict [("type", PStr "TEXT"); ("text", PStr "hi"); ("visible", PBool false)].

Definition sample_displays : list pyval :=
  [sample_line; sample_rect; sample_broken_rect; sample_hidden_text].

Definition sample_canvas : list (string * pyval) :=
  [("title", PStr "T"); ("displays", PList sample_displays)].

Definition hidden_canvas : list (string * pyval) :=
  [("title", PStr "H"); ("displays", PList [sample_hidden_text])].




End Spec.

(* ================================================================== *)
(** * The driver *)
(* ================================================================== *)

(** [main] reads one project, converts every canvas and writes the
    documents.  The parsed project is the argument [data]; what [main] does
    to the outside is collected as [effects]: the lines printed, the
    warnings of the conversions, and the files written, each in order.
    Printing and opening a file for writing are taken to succeed: what the
    file system may refuse is outside the script. *)
Module Driver.
Import Py Xcs.
Local Open Scope py_scope.

(** What ends [main] early: an exception of the operators above, or the
    [IndexError] of a list subscript. *)
Inductive raised : Type :=
| Builtin (e : exn)
| IndexError.

(** [len(obj)]. *)
Definition len (obj : pyval) : result Z :=
  match obj with
  | PList l => Ok (Z.of_nat (List.length l))
  | PDict kv => Ok (Z.of_nat (List.length kv))
  | PStr s => Ok (Z.of_nat (String.length s))
  | _ => Raise TypeError
  end.

(** [obj[1]], the subscript with the integer 1: the second item of a list,
    the second character of a string; a dict of string keys has no key 1. *)
Definition item_1 (obj : pyval) : pyval + raised :=
  match obj with
  | PList l =>
      match nth_error l 1 with
      | Some v => inl v
      | None => inr IndexError
      end
  | PStr s =>
      match String.get 1 s with
      | Some c => inl (PStr (String c ""))
      | None => inr IndexError
      end
  | PDict _ => inr (Builtin KeyError)
  | _ => inr (Builtin TypeError)
  end.

Record effects : Type := {
  stdout : list string;
  stderr : list warning;
  written : list (string * string)
}.

Definition quiet : effects := {| stdout := []; stderr := []; written := [] |}.

Definition and_then (a b : effects) : effects :=
  {| stdout := stdout a ++ stdout b;
     stderr := stderr a ++ stderr b;
     written := written a ++ written b |}.

(** The line [main] prints for canvas [i] before converting it. *)
Definition canvas_report (i : Z) (canvas : pyval) : result string :=
  ext <- get canvas "extendInfo" (PDict []) ;;
  canvas_type <- get ext "type" (PStr "2d") ;;
  title <- get canvas "title" (PStr ("canvas_" ++ str_of_int i)) ;;
  displays <- get canvas "displays" (PList []) ;;
  visible_count <- (ds <- iter displays ;; visible_count ds) ;;
  n <- len displays ;;
  Ok ("Canvas " ++ str_of_int i ++ " (" ++ str title ++ "): type=" ++ str canvas_type
      ++ ", " ++ str_of_int n ++ " displays (" ++ str_of_int visible_count ++ " visible)").

Definition canvas_path (i : Z) : string :=
  "/home/claude/canvas_" ++ str_of_int i ++ ".svg".

Definition main_path : string := "/mnt/user-data/outputs/Calib-Slides.svg".

(** The body of the loop over the canvases. *)
Definition loop_body (i : Z) (canvas : pyval) : effects * result unit :=
  match canvas_report i canvas with
  | Raise e => (quiet, Raise e)
  | Ok line =>
      (* canvas_type == '2d' or True *)
      match convert_canvas_to_svg canvas i with
      | Raise e => ({| stdout := [line]; stderr := []; written := [] |}, Raise e)
      | Ok (svg, warnings) =>
          match svg with
          | Some svg =>
              if truthy (PStr svg) then
                let fname := canvas_path i in
                ({| stdout := [line; "  -> Wrote " ++ fname];
                    stderr := warnings;
                    written := [(fname, svg)] |}, Ok tt)
              else ({| stdout := [line]; stderr := warnings; written := [] |}, Ok tt)
          | None => ({| stdout := [line]; stderr := warnings; written := [] |}, Ok tt)
          end
      end
  end.

(** The loop, [i] counting the canvases as [enumerate] does. *)
Fixpoint main_loop (i : Z) (canvases : list pyval) : effects * result unit :=
  match canvases with
  | [] => (quiet, Ok tt)
  | canvas :: rest =>
      match loop_body i canvas with
      | (fx, Ok _) =>
          let (fx', r) := main_loop (i + 1) rest in (and_then fx fx', r)
      | (fx, Raise e) => (fx, Raise e)
      end
  end.

(** What follows the loop: canvas 1 once more, written to the main path. *)
Definition main_output (canvases : pyval) : effects * option raised :=
  match item_1 canvases with
  | inr r => (quiet, Some r)
  | inl canvas1 =>
      match convert_canvas_to_svg canvas1 1 with
      | Raise e => (quiet, Some (Builtin e))
      | Ok (svg1, warnings) =>
          match svg1 with
          | Some svg1 =>
              if truthy (PStr svg1) then
                ({| stdout := [nl ++ "Main output: " ++ main_path];
                    stderr := warnings;
                    written := [(main_path, svg1)] |}, None)
              else ({| stdout := []; stderr := warnings; written := [] |}, None)
          | None => ({| stdout := []; stderr := warnings; written := [] |}, None)
          end
      end
  end.

(** [main], after [json.load]: the effects, and what it raised if it did
    not run to its end. *)
Definition main (data : pyval) : effects * option raised :=
  match getitem data "canvas" with
  | Raise e => (quiet, Some (Builtin e))
  | Ok canvases =>
      match iter canvases with
      | Raise e => (quiet, Some (Builtin e))
      | Ok cs =>
          match main_loop 0 cs with
          | (fx, Raise e) => (fx, Some (Builtin e))
          | (fx, Ok _) =>
              let (fx', r) := main_output canvases in (and_then fx fx', r)
          end
      end
  end.

(** ** Vocabulary *)

(** The file a canvas gives rise to: none unless its conversion returns a
    document. *)
Definition canvas_files (path : string) (i : Z) (canvas : pyval) : list (string * string) :=
  match convert_canvas_to_svg canvas i with
  | Ok (Some svg, _) => [(path, svg)]
  | _ => []
  end.

(** The files of the canvases [i, i+1, ...]. *)
Fixpoint files_from (i : Z) (canvases : list pyval) : list (string * string) :=
  match canvases with
  | [] => []
  | canvas :: rest => canvas_files (canvas_path i) i canvas ++ files_from (i + 1) rest
  end.

(** A project of two canvases: one without a visible display, then the
    sample canvas. *)
Definition sample_project : pyval :=
  PDict [("canvas", PList [PDict Spec.hidden_canvas; PDict Spec.sample_canvas])].

End Driver.

(* ================================================================== *)
(** * Further vocabulary *)
(* ================================================================== *)

Module Notions.
Import Py Xcs Spec.

(** What a mapper returns: nothing, or markup that opens a tag. *)
Definition empty_or_tagged (s : string) : Prop :=
  s = "" \/ exists u, s = String "<" u.

(** A path without commands, a bitmap without payload. *)
Definition without_payload (kv : list (string * pyval)) : Prop :=
  (field "type" (PStr "") kv = PStr "PATH"
   /\ truthy (field "dPath" (PStr "") kv) = false)
  \/ (field "type" (PStr "") kv = PStr "BITMAP"
      /\ truthy (field "base64" (PStr "") kv) = false).

(** The warnings the conversion of a canvas prints. *)
Definition canvas_warnings (i : Z) (canvas : pyval) : list warning :=
  match convert_canvas_to_svg canvas i with
  | Ok (_, warnings) => warnings
  | Raise _ => []
  end.

(** The warnings of the canvases [i, i+1, ...]. *)
Fixpoint warnings_from (i : Z) (canvases : list pyval) : list warning :=
  match canvases with
  | [] => []
  | canvas :: rest => canvas_warnings i canvas ++ warnings_from (i + 1) rest
  end.

End Notions.

(* ================================================================== *)
(** * Properties *)
(* ================================================================== *)

Import Py Xcs Spec.
Local Open Scope py_scope.

(** ** Strings *)

Lemma append_assoc (a b c : string) : (a ++ b) ++ c = a ++ (b ++ c).
Proof. induction a as [|ch a IH]; cbn; [reflexivity | now rewrite IH]. Qed.

Lemma append_nil_r (a : string) : a ++ "" = a.
Proof. induction a as [|ch a IH]; cbn; [reflexivity | now rewrite IH]. Qed.

(** Both sides of an equation between markup templates, flattened to
    right-nested appends. *)
Ltac flatten_markup :=
  unfold element, quoted, join, append;
  cbn [String.concat List.app String.append];
  repeat (progress (rewrite ?append_assoc, ?append_nil_r; cbn [String.append])).

(** ** Color resolution *)

Lemma land_255 (n : Z) : Z.land n 0xFF = n mod 256.
Proof. exact (Z.land_ones n 8 ltac:(lia)). Qed.

Lemma format_02x_byte (v : Z) :
  0 <= v < 256 ->
  format_02x v = String (digit_char (v / 16)) (String (digit_char (v mod 16)) "").
Proof.
  intros Hv.
  assert (Hall : forallb (fun n : nat =>
            String.eqb (format_02x (Z.of_nat n))
              (String (digit_char (Z.of_nat n / 16))
                 (String (digit_char (Z.of_nat n mod 16)) "")))
            (seq 0 256) = true) by (vm_compute; reflexivity).
  rewrite forallb_forall in Hall.
  specialize (Hall (Z.to_nat v)).
  rewrite Z2Nat.id in Hall by lia.
  apply String.eqb_eq, Hall, in_seq. lia.
Qed.

Lemma hex_value_digit_char (d : Z) :
  0 <= d < 16 -> hex_value (digit_char d) = Some d.
Proof.
  intros Hd.
  assert (Hall : forallb (fun n : nat =>
            match hex_value (digit_char (Z.of_nat n)) with
            | Some d' => d' =? Z.of_nat n
            | None => false
            end) (seq 0 16) = true) by (vm_compute; reflexivity).
  rewrite forallb_forall in Hall.
  specialize (Hall (Z.to_nat d)).
  rewrite Z2Nat.id in Hall by lia.
  destruct (hex_value (digit_char d)) as [d'|].
  - f_equal. apply Z.eqb_eq, Hall, in_seq. lia.
  - discriminate Hall. apply in_seq. lia.
Qed.

(** The markup of an integer color is its three low bytes in hexadecimal. *)
Lemma int_color_to_hex_int (n : Z) :
  int_color_to_hex (PInt n) =
    Ok ("#" ++ format_02x ((n / 65536) mod 256) ++ format_02x ((n / 256) mod 256)
            ++ format_02x (n mod 256)).
Proof.
  unfold int_color_to_hex. cbn [as_num int_of_num bind].
  rewrite !land_255, !Z.shiftr_div_pow2 by lia.
  reflexivity.
Qed.

(** C1. For every integer color [c] in [[0, 0xFFFFFF]], color resolution
    returns ['#'] followed by six hexadecimal digits, and reading these six
    digits back in base 16 gives [c]. *)
Theorem int_color_to_hex_roundtrip (c : Z) :
  0 <= c <= 0xFFFFFF ->
  exists h : string,
    int_color_to_hex (PInt c) = Ok (String "#" h)
    /\ String.length h = 6%nat
    /\ all_hex h = true
    /\ int_base16 h = Some c.
Proof.
  intros Hc.
  rewrite int_color_to_hex_int.
  assert (Hr : 0 <= (c / 65536) mod 256 < 256) by (apply Z.mod_pos_bound; lia).
  assert (Hg : 0 <= (c / 256) mod 256 < 256) by (apply Z.mod_pos_bound; lia).
  assert (Hb : 0 <= c mod 256 < 256) by (apply Z.mod_pos_bound; lia).
  rewrite !format_02x_byte by assumption.
  set (r := (c / 65536) mod 256) in *.
  set (g := (c / 256) mod 256) in *.
  set (b := c mod 256) in *.
  eexists. split; [cbn; reflexivity|].
  assert (Hd : forall v, 0 <= v < 256 -> 0 <= v / 16 < 16 /\ 0 <= v mod 16 < 16)
    by (intros v Hv; split; [split; [apply Z.div_pos; lia | apply Z.div_lt_upper_bound; lia]
                            | apply Z.mod_pos_bound; lia]).
  destruct (Hd r Hr) as [Hr1 Hr2], (Hd g Hg) as [Hg1 Hg2], (Hd b Hb) as [Hb1 Hb2].
  split; [reflexivity|]. split.
  - cbn [all_hex]. rewrite !hex_value_digit_char by assumption. reflexivity.
  - unfold int_base16. cbn [int_base16_acc].
    rewrite !hex_value_digit_char by assumption.
    f_equal. subst r g b.
    pose proof (Z.div_mod c 256 ltac:(lia)).
    pose proof (Z.div_mod (c / 256) 256 ltac:(lia)).
    pose proof (Z.div_mod ((c / 65536) mod 256) 16 ltac:(lia)).
    pose proof (Z.div_mod ((c / 256) mod 256) 16 ltac:(lia)).
    pose proof (Z.div_mod (c mod 256) 16 ltac:(lia)).
    assert (H65 : c / 65536 = c / 256 / 256) by (rewrite Z.div_div by lia; reflexivity).
    assert (Hsmall : (c / 65536) mod 256 = c / 65536).
    { apply Z.mod_small. split; [apply Z.div_pos; lia | apply Z.div_lt_upper_bound; lia]. }
    lia.
Qed.

Lemma int_color_to_hex_roundtrip_witness :
  0 <= 16421416 <= 0xFFFFFF
  /\ exists h : string,
       int_color_to_hex (PInt 16421416) = Ok (String "#" h)
       /\ String.length h = 6%nat /\ all_hex h = true /\ int_base16 h = Some 16421416.
Proof.
  split; [lia | apply int_color_to_hex_roundtrip; lia].
Defined.

(** A string that starts with ['#'] is returned as it is. *)
Lemma int_color_to_hex_hash (s : string) :
  startswith s "#" = true -> int_color_to_hex (PStr s) = Ok s.
Proof. intros H. unfold int_color_to_hex. rewrite H. reflexivity. Qed.

(** A string that reads as an integer is resolved like that integer. *)
Lemma int_color_to_hex_numeric_string (s : string) (n : Z) :
  startswith s "#" = false -> int_of_str s = Ok n ->
  int_color_to_hex (PStr s) = int_color_to_hex (PInt n).
Proof. intros H1 H2. unfold int_color_to_hex. rewrite H1, H2. reflexivity. Qed.

(** A string that does not read as an integer is returned as it is. *)
Lemma int_color_to_hex_verbatim (s : string) (e : exn) :
  startswith s "#" = false -> int_of_str s = Raise e ->
  int_color_to_hex (PStr s) = Ok s.
Proof. intros H1 H2. unfold int_color_to_hex. rewrite H1, H2. reflexivity. Qed.

(** What is neither a number nor a string is black. *)
Lemma int_color_to_hex_default (v : pyval) :
  isinstance_str v = false -> isinstance_int_float v = false ->
  int_color_to_hex v = Ok "#000000".
Proof.
  unfold isinstance_int_float, int_color_to_hex.
  destruct v; cbn; intros; congruence.
Qed.

Lemma Prim2SF_nan_inv (f : float) : Prim2SF f = S754_nan -> is_nan f = true.
Proof.
  unfold Prim2SF.
  destruct (is_nan f); [reflexivity|].
  destruct (is_zero f); [discriminate|].
  destruct (is_infinity f); [discriminate|].
  destruct (Z.frexp f) as [r x].
  destruct (shr_fexp _ _ _ _ _) as [mrs e'].
  destruct (shr_m mrs); discriminate.
Qed.

Lemma Prim2SF_infinity_inv (f : float) (s : bool) :
  Prim2SF f = S754_infinity s -> is_nan f = false /\ is_infinity f = true.
Proof.
  unfold Prim2SF.
  destruct (is_nan f); [discriminate|].
  destruct (is_zero f); [discriminate|].
  destruct (is_infinity f); [auto|].
  destruct (Z.frexp f) as [r x].
  destruct (shr_fexp _ _ _ _ _) as [mrs e'].
  destruct (shr_m mrs); discriminate.
Qed.

(** Truncation is defined on every finite float. *)
Lemma int_of_float_finite (f : float) :
  is_finite f = true -> exists n, int_of_float f = Ok n.
Proof.
  unfold is_finite, int_of_float. intros Hf.
  destruct (Prim2SF f) eqn:E; eauto.
  - apply Prim2SF_infinity_inv in E as [_ E]. rewrite E, orb_true_r in Hf. discriminate.
  - apply Prim2SF_nan_inv in E. rewrite E in Hf. discriminate.
Qed.

(** Away from the two infinities and NaN, color resolution returns. *)
Lemma int_color_to_hex_returns (v : pyval) :
  (forall f, v = PFloat f -> is_finite f = true) ->
  exists s, int_color_to_hex v = Ok s.
Proof.
  intros Hfin. unfold int_color_to_hex.
  destruct v as [ |b|n|f|s|l|kv]; cbn [as_num int_of_num bind]; eauto.
  - destruct (int_of_float_finite f (Hfin f eq_refl)) as [n ->]. cbn. eauto.
  - destruct (startswith s "#"); eauto.
    destruct (int_of_str s); cbn; eauto.
Qed.

(** C8. Color resolution is not total: a [float] color that is an infinity
    or NaN (which the JSON reader produces for [1e999], [Infinity] and
    [NaN]) makes the conversion [int(color_val)] raise. *)
Theorem int_color_to_hex_raises_on_nonfinite :
  int_color_to_hex (PFloat infinity) = Raise OverflowError
  /\ int_color_to_hex (PFloat neg_infinity) = Raise OverflowError
  /\ int_color_to_hex (PFloat nan) = Raise ValueError.
Proof. repeat split; vm_compute; reflexivity. Qed.

(** ** Transform composition *)

Lemma get_dict (kv : list (string * pyval)) (key : string) (default : pyval) :
  get (PDict kv) key default = Ok (field key default kv).
Proof. unfold get, field. destruct (lookup key kv); reflexivity. Qed.

Lemma float_of_int_180 : float_of_int 180 = Ok 180%float.
Proof. vm_compute. reflexivity. Qed.

(** On a [float] angle the conversion to degrees is IEEE arithmetic and
    cannot raise. *)
Lemma degrees_float (f : float) :
  degrees (PFloat f) = Ok (PFloat (f * 180 / math_pi)).
Proof.
  unfold degrees, py_mul, py_truediv, arith. cbn [as_num to_float bind].
  rewrite float_of_int_180. cbn [bind as_num to_float].
  replace (PrimFloat.eqb math_pi 0) with false by (vm_compute; reflexivity).
  reflexivity.
Qed.

Lemma py_abs_num (v : pyval) (a : num) :
  as_num v = Some a -> exists w b, py_abs v = Ok w /\ as_num w = Some b.
Proof.
  unfold py_abs. intros ->. destruct a; eexists; eexists; split; reflexivity.
Qed.

Lemma py_lt_num (v w : pyval) (a b : num) :
  as_num v = Some a -> as_num w = Some b -> py_lt v w = Ok (num_lt a b).
Proof.
  intros Hv Hw.
  destruct v; try discriminate; destruct w; try discriminate;
    cbn in Hv, Hw; injection Hv as <-; injection Hw as <-; reflexivity.
Qed.

(** The list built by [build_transform] is the composition of the
    specification, failures of the conversion to degrees included. *)
Lemma transforms_of_composed (kv skv : list (string * pyval)) (a : num) :
  scale_of kv = PDict skv ->
  as_num (field "angle" (PInt 0) kv) = Some a ->
  transforms_of (PDict kv)
  = composed (field "x" (PInt 0) kv) (field "y" (PInt 0) kv) (field "angle" (PInt 0) kv)
      (field "x" (PInt 1) skv) (field "y" (PInt 1) skv).
Proof.
  intros Hscale Hangle.
  unfold transforms_of, composed. unfold scale_of, unit_scale in Hscale.
  do 4 (rewrite get_dict; cbn [bind]).
  rewrite Hscale. do 2 (rewrite get_dict; cbn [bind]).
  set (angle := field "angle" (PInt 0) kv) in *.
  destruct (py_ne (field "x" (PInt 1) skv) (PInt 1) || py_ne (field "y" (PInt 1) skv) (PInt 1));
    (destruct (py_ne angle (PInt 0)); [|reflexivity]).
  all: cbv zeta.
  all: destruct (py_abs_num angle a Hangle) as (w & b & E & Hw); rewrite E; cbn [bind].
  all: replace (py_mul (PInt 2) (PFloat math_pi)) with (Ok (PFloat (2 * math_pi)))
    by (vm_compute; reflexivity).
  all: cbn [bind]; unfold py_gt.
  all: rewrite (py_lt_num (PFloat (2 * math_pi)) w _ b eq_refl Hw); cbn [bind].
  all: unfold degrees.
  all: destruct (num_lt _ b), (py_mul angle (PInt 180)) as [t|e];
    cbn [bind]; try reflexivity.
  all: destruct (py_truediv t (PFloat math_pi)); reflexivity.
Qed.

(** On a [float] angle the composition is defined. *)
Lemma composed_float (x y sx sy : pyval) (f : float) :
  composed x y (PFloat f) sx sy
  = Ok ([translation x y]
        ++ (if py_ne (PFloat f) (PInt 0) then [rotation (PFloat (f * 180 / math_pi))] else [])
        ++ (if py_ne sx (PInt 1) || py_ne sy (PInt 1) then [scaling sx sy] else []))%list.
Proof.
  unfold composed. rewrite degrees_float.
  destruct (py_ne (PFloat f) (PInt 0)); reflexivity.
Qed.

(** The transform of a record is defined when its scale is absent or a
    record and its angle is absent or a [float]. *)
Lemma build_transform_returns (kv skv : list (string * pyval)) :
  scale_of kv = PDict skv ->
  (lookup "angle" kv = None \/ exists f, lookup "angle" kv = Some (PFloat f)) ->
  exists transform, build_transform (PDict kv) = Ok transform.
Proof.
  intros Hscale Hangle. unfold build_transform.
  assert (E : exists a, as_num (field "angle" (PInt 0) kv) = Some a).
  { unfold field. destruct Hangle as [-> | [f ->]]; eexists; reflexivity. }
  destruct E as [a E]. rewrite (transforms_of_composed kv skv a Hscale E).
  unfold field at 3. destruct Hangle as [-> | [f ->]].
  - cbn. eexists. reflexivity.
  - rewrite composed_float. cbn [bind]. eexists. reflexivity.
Qed.

(** C2. The transform of a display is the translation by [(x, y)], then the
    rotation by [angle * 180 / pi] exactly when [angle != 0], then the
    scale by [(sx, sy)] exactly when it is not [(1, 1)], joined in this
    order.  On a [float] angle the conversion cannot fail, and [pi / 2]
    radians are 90 degrees. *)
Theorem build_transform_composition (kv skv : list (string * pyval)) (a : num) :
  scale_of kv = PDict skv ->
  as_num (field "angle" (PInt 0) kv) = Some a ->
  let x := field "x" (PInt 0) kv in
  let y := field "y" (PInt 0) kv in
  let angle := field "angle" (PInt 0) kv in
  let sx := field "x" (PInt 1) skv in
  let sy := field "y" (PInt 1) skv in
  transforms_of (PDict kv) = composed x y angle sx sy
  /\ build_transform (PDict kv)
     = (parts <- composed x y angle sx sy ;; Ok (join " " parts))
  /\ (forall f, angle = PFloat f ->
        composed x y angle sx sy
        = Ok ([translation x y]
              ++ (if py_ne angle (PInt 0) then [rotation (PFloat (f * 180 / math_pi))] else [])
              ++ (if py_ne sx (PInt 1) || py_ne sy (PInt 1) then [scaling sx sy] else []))%list)
  /\ degrees (PFloat (math_pi / 2)) = Ok (PFloat 90).
Proof.
  intros Hscale Hangle x y angle sx sy.
  pose proof (transforms_of_composed kv skv a Hscale Hangle) as Hparts.
  fold x y angle sx sy in Hparts.
  split; [exact Hparts|]. split; [|split].
  - unfold build_transform. rewrite Hparts. reflexivity.
  - intros f ->. apply composed_float.
  - vm_compute. reflexivity.
Qed.

Lemma build_transform_composition_witness :
  build_transform (PDict [("x", PFloat 1.5); ("y", PInt 5);
                          ("angle", PFloat (math_pi / 2));
                          ("scale", PDict [("x", PInt 2)])])
  = (parts <- composed (PFloat 1.5) (PInt 5) (PFloat (math_pi / 2)) (PInt 2) (PInt 1) ;;
     Ok (join " " parts)).
Proof.
  exact (proj1 (proj2 (build_transform_composition
                         [("x", PFloat 1.5); ("y", PInt 5);
                          ("angle", PFloat (math_pi / 2));
                          ("scale", PDict [("x", PInt 2)])]
                         [("x", PInt 2)] (NFloat (math_pi / 2)) eq_refl eq_refl))).
Defined.

Example build_transform_quarter_turn :
  build_transform (PDict [("x", PFloat 1.5); ("y", PInt 5);
                          ("angle", PFloat (math_pi / 2));
                          ("scale", PDict [("x", PInt 2)])])
  = Ok "translate(1.5, 5) rotate(90.0) scale(2, 1)".
Proof. vm_compute. reflexivity. Qed.

(** ** Rectangles and lines *)

(** Stepping through the reads of a record. *)
Ltac read_fields := repeat (rewrite get_dict; cbn [bind]).

(** One of the six parts of a rectangle raised: so does the mapping, and
    the parts cannot all have returned. *)
Ltac part_raised :=
  split;
  [ discriminate
  | intros (? & ? & ? & ? & ? & ? & ? & ? & ? & ? & ? & ? & _); discriminate ].

Lemma py_truediv_float_2 (f : float) :
  py_truediv (PFloat f) (PInt 2) = Ok (PFloat (f / 2)).
Proof.
  unfold py_truediv, arith. cbn [as_num to_float bind].
  replace (float_of_int 2) with (Ok 2%float) by (vm_compute; reflexivity).
  cbn [bind].
  replace (PrimFloat.eqb 2 0) with false by (vm_compute; reflexivity).
  reflexivity.
Qed.

(** Centring cannot fail on a [float] extent. *)
Lemma centred_float (f : float) : centred (PFloat f) = Ok (PFloat (- f / 2)).
Proof. unfold centred. cbn [py_neg as_num bind]. apply py_truediv_float_2. Qed.

(** C3. A rectangle display maps to a rectangle whose corner is
    [(-w/2, -h/2)], with the given width and height, so that it is centred
    on the local origin; [rx]/[ry] are emitted exactly when [radius > 0].
    The mapping returns exactly when its parts do; centring cannot fail on
    [float] extents; the rectangle 10 by 4 at [(5, 5)] has its corner at
    [(-5, -2)] under [translate(5, 5)], that is at [(0, 3)]. *)
Theorem render_rect_centred (kv : list (string * pyval)) :
  let d := PDict kv in
  let w := field "width" (PInt 0) kv in
  let h := field "height" (PInt 0) kv in
  let r := field "radius" (PInt 0) kv in
  (forall s,
      render_rect d = Ok s <->
      exists transform fill stroke x0 y0 c,
        build_transform d = Ok transform
        /\ get_fill_color d = Ok fill
        /\ get_stroke_props d = Ok stroke
        /\ centred w = Ok x0 /\ centred h = Ok y0
        /\ py_gt r (PInt 0) = Ok c
        /\ s = element "rect" transform
                 (rect_attributes x0 y0 w h (if c then Some r else None) fill stroke))
  /\ (forall fw fh, w = PFloat fw -> h = PFloat fh ->
        centred w = Ok (PFloat (- fw / 2)) /\ centred h = Ok (PFloat (- fh / 2)))
  /\ render_rect (PDict [("x", PInt 5); ("y", PInt 5); ("width", PInt 10); ("height", PInt 4)])
     = Ok (element "rect" "translate(5, 5)"
             (rect_attributes (PFloat (-5)) (PFloat (-2)) (PInt 10) (PInt 4) None "none" None))
  /\ py_add (PInt 5) (PFloat (-5)) = Ok (PFloat 0)
  /\ py_add (PInt 5) (PFloat (-2)) = Ok (PFloat 3).
Proof.
  intros d w h r. split; [|split; [|split; [|split]]].
  - intros s. unfold render_rect, d. read_fields. fold d w h r.
    fold (centred w) (centred h).
    destruct (build_transform d) as [t|e]; cbn [bind]; [|part_raised].
    destruct (get_fill_color d) as [fill|e]; cbn [bind]; [|part_raised].
    destruct (get_stroke_props d) as [sp|e]; cbn [bind]; [|part_raised].
    destruct (centred w) as [x0|e]; cbn [bind]; [|part_raised].
    destruct (centred h) as [y0|e]; cbn [bind]; [|part_raised].
    destruct (py_gt r (PInt 0)) as [c|e]; cbn [bind]; [|part_raised].
    split.
    + intros H. injection H as <-.
      exists t, fill, sp, x0, y0, c.
      repeat split; destruct c, sp; reflexivity.
    + intros (t' & fill' & sp' & x0' & y0' & c' & H1 & H2 & H3 & H4 & H5 & H6 & ->).
      injection H1 as <-. injection H2 as <-. injection H3 as <-.
      injection H4 as <-. injection H5 as <-. injection H6 as <-.
      destruct c, sp; reflexivity.
  - intros fw fh -> ->. split; apply centred_float.
  - vm_compute. reflexivity.
  - vm_compute. reflexivity.
  - vm_compute. reflexivity.
Qed.

Lemma get_stroke_props_hidden (kv : list (string * pyval)) :
  stroke_hidden kv -> get_stroke_props (PDict kv) = Ok None.
Proof.
  intros (skv & Hs & Hv). unfold get_stroke_props.
  rewrite get_dict, Hs. cbn [bind]. rewrite get_dict. cbn [bind].
  rewrite Hv. reflexivity.
Qed.

(** C4. A line display whose stroke is absent or not visible still maps to
    a non-empty line element, from the local origin to the end point
    [(x2, y2)], drawn with the default stroke: color [#000000], width [1].
    It fails only if the transform does, which it does not when the scale
    is absent or a record and the angle absent or a [float]. *)
Theorem render_line_default_stroke (kv ekv : list (string * pyval)) :
  stroke_hidden kv ->
  field "endPoint" (PDict []) kv = PDict ekv ->
  let d := PDict kv in
  let x2 := field "x" (PInt 0) ekv in
  let y2 := field "y" (PInt 0) ekv in
  let markup (transform : string) :=
    "<line transform=" ++ quoted transform
    ++ " x1=" ++ quoted "0" ++ " y1=" ++ quoted "0"
    ++ " x2=" ++ quoted (str x2) ++ " y2=" ++ quoted (str y2)
    ++ " stroke=" ++ quoted "#000000" ++ " stroke-width=" ++ quoted "1" ++ " />" in
  render_line d = (transform <- build_transform d ;; Ok (markup transform))
  /\ (forall transform, truthy (PStr (markup transform)) = true)
  /\ (forall transform,
        markup transform = element "line" transform (line_attributes x2 y2 default_stroke))
  /\ (forall skv,
        scale_of kv = PDict skv ->
        (lookup "angle" kv = None \/ exists f, lookup "angle" kv = Some (PFloat f)) ->
        exists transform, render_line d = Ok (markup transform)).
Proof.
  intros Hstroke Hend d x2 y2 markup.
  assert (Hline : render_line d = (transform <- build_transform d ;; Ok (markup transform))).
  { unfold render_line, d. rewrite get_dict, Hend. cbn [bind]. read_fields.
    rewrite (get_stroke_props_hidden kv Hstroke). fold d x2 y2.
    destruct (build_transform d) as [t|e]; cbn [bind]; [|reflexivity].
    f_equal. unfold markup. flatten_markup. reflexivity. }
  split; [exact Hline|]. split; [|split].
  - intros t. reflexivity.
  - intros t. unfold markup, line_attributes. flatten_markup. reflexivity.
  - intros skv Hscale Hangle.
    destruct (build_transform_returns kv skv Hscale Hangle) as [t Ht].
    exists t. rewrite Hline. unfold d. rewrite Ht. reflexivity.
Qed.

Lemma render_line_default_stroke_witness :
  render_line (PDict [("type", PStr "LINE"); ("endPoint", PDict [("x", PInt 3); ("y", PInt 4)]);
                      ("stroke", PDict [("visible", PBool false); ("color", PInt 255)])])
  = (transform <- build_transform
                    (PDict [("type", PStr "LINE");
                            ("endPoint", PDict [("x", PInt 3); ("y", PInt 4)]);
                            ("stroke", PDict [("visible", PBool false); ("color", PInt 255)])]) ;;
     Ok ("<line transform=" ++ quoted transform
         ++ " x1=" ++ quoted "0" ++ " y1=" ++ quoted "0"
         ++ " x2=" ++ quoted (str (PInt 3)) ++ " y2=" ++ quoted (str (PInt 4))
         ++ " stroke=" ++ quoted "#000000" ++ " stroke-width=" ++ quoted "1" ++ " />")).
Proof.
  exact (proj1 (render_line_default_stroke
                  [("type", PStr "LINE"); ("endPoint", PDict [("x", PInt 3); ("y", PInt 4)]);
                   ("stroke", PDict [("visible", PBool false); ("color", PInt 255)])]
                  [("x", PInt 3); ("y", PInt 4)]
                  (ex_intro _ [("visible", PBool false); ("color", PInt 255)]
                     (conj eq_refl eq_refl))
                  eq_refl)).
Defined.

(** ** The bounding box *)

Lemma bounds_step_dict (b : box) (kv : list (string * pyval)) :
  bounds_step b (PDict kv) = if visible (PDict kv) then grow b kv else Ok b.
Proof.
  destruct b as [[[min_x min_y] max_x] max_y].
  unfold bounds_step, visible. rewrite get_dict. cbn [bind].
  destruct (truthy _); [|reflexivity]. cbn [negb].
  read_fields. reflexivity.
Qed.

Lemma bounds_loop_visible (ds : list pyval) :
  Forall is_dict ds ->
  forall b, bounds_loop b ds = accumulate b (filter visible ds).
Proof.
  induction 1 as [|d ds Hd _ IH]; intros b; [reflexivity|].
  destruct d; try contradiction. cbn [bounds_loop filter].
  rewrite bounds_step_dict.
  destruct (visible (PDict kv)).
  - cbn [accumulate]. destruct (grow b kv); cbn [bind]; [apply IH | reflexivity].
  - cbn [bind]. apply IH.
Qed.


(** ** Sorting *)

Section SortedFacts.
Context {A : Type}.
Implicit Types (l r : list (pyval * A)) (key : A -> result pyval).

Lemma decorate_items key (items : list A) l :
  decorate key items = Ok l -> map snd l = items.
Proof.
  revert l. induction items as [|x items IH]; intros l; cbn.
  - intros [= <-]. reflexivity.
  - destruct (key x) as [k|]; cbn; [|discriminate].
    destruct (decorate key items) as [l'|]; cbn; [|discriminate].
    intros [= <-]. cbn. f_equal. now apply IH.
Qed.

Lemma insert_permutation kx (x : A) l r :
  insert kx x l = Ok r -> Permutation ((kx, x) :: l) r.
Proof.
  revert r. induction l as [|[ky y] l IH]; intros r; cbn.
  - intros [= <-]. apply Permutation_refl.
  - destruct (py_lt ky kx) as [[|]|]; cbn; [| |discriminate].
    + destruct (insert kx x l) as [r'|]; cbn; [|discriminate].
      intros [= <-]. eapply Permutation_trans; [apply perm_swap|].
      apply perm_skip. now apply IH.
    + intros [= <-]. apply Permutation_refl.
Qed.

Lemma sort_keyed_permutation l r :
  sort_keyed l = Ok r -> Permutation l r.
Proof.
  revert r. induction l as [|[kx x] l IH]; intros r; cbn.
  - intros [= <-]. apply Permutation_refl.
  - destruct (sort_keyed l) as [r'|]; cbn; [|discriminate].
    intros H. apply insert_permutation in H.
    eapply Permutation_trans; [apply perm_skip, IH; reflexivity | exact H].
Qed.

(** Whatever the keys, [sorted] returns a rearrangement of its input. *)
Lemma sorted_permutation key (items sd : list A) :
  sorted items key = Ok sd -> Permutation items sd.
Proof.
  unfold sorted.
  destruct (decorate key items) as [l|] eqn:Hdec; cbn; [|discriminate].
  destruct (sort_keyed l) as [r|] eqn:Hsort; cbn; [|discriminate].
  intros [= <-]. rewrite <- (decorate_items _ _ _ Hdec).
  apply Permutation_map. now apply sort_keyed_permutation.
Qed.

End SortedFacts.

(** The pure insertion sort: a rearrangement, ordered, and stable. *)
Section SortBy.
Context {A : Type} (key : A -> Z).

Lemma insert_by_permutation (x : A) (l : list A) :
  Permutation (x :: l) (insert_by key x l).
Proof.
  induction l as [|y l IH]; cbn; [apply Permutation_refl|].
  destruct (key y <? key x); [|apply Permutation_refl].
  eapply Permutation_trans; [apply perm_swap | apply perm_skip, IH].
Qed.

Lemma sort_by_permutation (l : list A) : Permutation l (sort_by key l).
Proof.
  induction l as [|x l IH]; cbn; [apply Permutation_refl|].
  eapply Permutation_trans; [apply perm_skip, IH | apply insert_by_permutation].
Qed.

Lemma insert_by_ascending (x : A) (l : list A) :
  ascending key l -> ascending key (insert_by key x l).
Proof.
  unfold ascending. induction 1 as [|y l Hl IH Hy]; cbn.
  - constructor; constructor.
  - destruct (key y <? key x) eqn:E.
    + constructor; [exact IH|].
      apply Z.ltb_lt in E.
      eapply Permutation_Forall; [apply insert_by_permutation|].
      constructor; [lia | exact Hy].
    + apply Z.ltb_ge in E.
      constructor; [constructor; assumption|].
      constructor; [exact E|].
      eapply Forall_impl; [|exact Hy]. cbn. intros; lia.
Qed.

Lemma sort_by_ascending (l : list A) : ascending key (sort_by key l).
Proof.
  induction l as [|x l IH]; cbn; [constructor | now apply insert_by_ascending].
Qed.



End SortBy.

(** On integer keys, [sorted] is that sort. *)
Lemma py_lt_int (m n : Z) : py_lt (PInt m) (PInt n) = Ok (m <? n).
Proof. reflexivity. Qed.

Lemma decorate_z_order (ds : list pyval) :
  Forall integer_z_order ds ->
  decorate z_key ds = Ok (map (fun d => (PInt (z_order d), d)) ds).
Proof.
  induction 1 as [|d ds Hd _ IH]; [reflexivity|].
  cbn [decorate map]. rewrite IH.
  destruct d; try contradiction.
  unfold z_key, z_order in *. rewrite get_dict. cbn [bind integer_z_order] in *.
  destruct (field "zOrder" (PInt 0) kv); try contradiction. reflexivity.
Qed.

Lemma insert_z_order (x : pyval) (l : list pyval) :
  insert (PInt (z_order x)) x (map (fun d => (PInt (z_order d), d)) l)
  = Ok (map (fun d => (PInt (z_order d), d)) (insert_by z_order x l)).
Proof.
  induction l as [|y l IH]; [reflexivity|].
  cbn [map insert insert_by]. rewrite py_lt_int. cbn [bind].
  destruct (z_order y <? z_order x); [|reflexivity].
  rewrite IH. reflexivity.
Qed.

Lemma sorted_z_order (ds : list pyval) :
  Forall integer_z_order ds ->
  sorted ds z_key = Ok (sort_by z_order ds).
Proof.
  intros H. unfold sorted. rewrite (decorate_z_order ds H). cbn [bind].
  assert (E : sort_keyed (map (fun d => (PInt (z_order d), d)) ds)
              = Ok (map (fun d => (PInt (z_order d), d)) (sort_by z_order ds))).
  { clear H. induction ds as [|d ds IH]; [reflexivity|].
    cbn [map sort_keyed sort_by]. rewrite IH. cbn [bind]. apply insert_z_order. }
  rewrite E. cbn [bind]. rewrite map_map. cbn. now rewrite map_id.
Qed.

(** ** The box stays a box of floats *)

Lemma py_truediv_is_float (v w t : pyval) :
  py_truediv v w = Ok t -> exists q, t = PFloat q.
Proof.
  unfold py_truediv, arith.
  destruct (as_num v) as [[m|f]|], (as_num w) as [[n|g]|]; try discriminate.
  - destruct (int_truediv m n); cbn; [intros [= <-]; eauto | discriminate].
  - destruct (to_float (NInt m)); cbn; [|discriminate].
    destruct (PrimFloat.eqb g 0); [discriminate | intros [= <-]; eauto].
  - cbn [to_float bind]. destruct (float_of_int n); cbn; [|discriminate].
    destruct (PrimFloat.eqb _ 0); [discriminate | intros [= <-]; eauto].
  - cbn. destruct (PrimFloat.eqb g 0); [discriminate | intros [= <-]; eauto].
Qed.

Lemma float_of_int_small :
  float_of_int 1 = Ok 1%float /\ float_of_int 2 = Ok 2%float.
Proof. split; vm_compute; reflexivity. Qed.

Lemma py_add_float_int (f : float) (n : Z) (g : float) :
  float_of_int n = Ok g -> py_add (PFloat f) (PInt n) = Ok (PFloat (f + g)).
Proof. intros H. unfold py_add, arith. cbn [as_num to_float bind]. now rewrite H. Qed.

Lemma py_sub_float_int (f : float) (n : Z) (g : float) :
  float_of_int n = Ok g -> py_sub (PFloat f) (PInt n) = Ok (PFloat (f - g)).
Proof. intros H. unfold py_sub, arith. cbn [as_num to_float bind]. now rewrite H. Qed.

Lemma half_extent_is_float (size scale t : pyval) :
  half_extent size scale = Ok t -> exists q, t = PFloat q.
Proof.
  unfold half_extent.
  destruct (py_mul size scale) as [p|]; cbn [bind]; [|discriminate].
  destruct (py_truediv p (PInt 2)) as [h|] eqn:E; cbn [bind]; [|discriminate].
  apply py_truediv_is_float in E as [q ->].
  rewrite (py_add_float_int q 1 1 (proj1 float_of_int_small)).
  intros [= <-]. eauto.
Qed.

Lemma py_sub_float_r (v t : pyval) (f : float) :
  py_sub v (PFloat f) = Ok t -> exists q, t = PFloat q.
Proof.
  unfold py_sub, arith. cbn [as_num].
  destruct (as_num v) as [[m|g]|]; try discriminate; cbn [to_float bind].
  - destruct (float_of_int m); cbn; [intros [= <-]; eauto | discriminate].
  - intros [= <-]; eauto.
Qed.

Lemma py_add_float_r (v t : pyval) (f : float) :
  py_add v (PFloat f) = Ok t -> exists q, t = PFloat q.
Proof.
  unfold py_add, arith. cbn [as_num].
  destruct (as_num v) as [[m|g]|] eqn:E; cbn [to_float bind].
  - destruct (float_of_int m); cbn; [intros [= <-]; eauto | discriminate].
  - intros [= <-]; eauto.
  - destruct v; discriminate.
Qed.

Lemma py_min_floats (f g : float) : exists q, py_min (PFloat f) (PFloat g) = Ok (PFloat q).
Proof. unfold py_min. cbn. destruct (PrimFloat.ltb g f); eauto. Qed.

Lemma py_max_floats (f g : float) : exists q, py_max (PFloat f) (PFloat g) = Ok (PFloat q).
Proof. unfold py_max, py_gt. cbn. destruct (PrimFloat.ltb f g); eauto. Qed.

Lemma grow_float_box (b b' : box) (kv : list (string * pyval)) :
  float_box b -> grow b kv = Ok b' -> float_box b'.
Proof.
  intros (x0 & y0 & x1 & y1 & ->). unfold grow.
  destruct (v <- get _ "x" _ ;; py_abs v) as [sx|]; cbn [bind]; [|discriminate].
  destruct (v <- get _ "y" _ ;; py_abs v) as [sy|]; cbn [bind]; [|discriminate].
  destruct (half_extent _ sx) as [hw|] eqn:Ew; cbn [bind]; [|discriminate].
  destruct (half_extent _ sy) as [hh|] eqn:Eh; cbn [bind]; [|discriminate].
  apply half_extent_is_float in Ew as [fw ->], Eh as [fh ->].
  destruct (py_sub _ (PFloat fw)) as [lx|] eqn:E1; cbn [bind]; [|discriminate].
  apply py_sub_float_r in E1 as [flx ->].
  destruct (py_min_floats x0 flx) as [mx ->]. cbn [bind].
  destruct (py_sub _ (PFloat fh)) as [ly|] eqn:E2; cbn [bind]; [|discriminate].
  apply py_sub_float_r in E2 as [fly ->].
  destruct (py_min_floats y0 fly) as [my ->]. cbn [bind].
  destruct (py_add _ (PFloat fw)) as [hx|] eqn:E3; cbn [bind]; [|discriminate].
  apply py_add_float_r in E3 as [fhx ->].
  destruct (py_max_floats x1 fhx) as [Mx ->]. cbn [bind].
  destruct (py_add _ (PFloat fh)) as [hy|] eqn:E4; cbn [bind]; [|discriminate].
  apply py_add_float_r in E4 as [fhy ->].
  destruct (py_max_floats y1 fhy) as [My ->]. cbn [bind].
  intros [= <-]. repeat eexists.
Qed.

Lemma accumulate_float_box (ds : list pyval) :
  forall b b', float_box b -> accumulate b ds = Ok b' -> float_box b'.
Proof.
  induction ds as [|d ds IH]; intros b b' Hb; cbn.
  - intros [= <-]. exact Hb.
  - destruct d; try discriminate.
    destruct (grow b kv) as [b1|] eqn:E; cbn [bind]; [|discriminate].
    apply IH. eapply grow_float_box; eassumption.
Qed.

Lemma empty_box_float : float_box empty_box.
Proof. repeat eexists. Qed.

(** The viewport of a box of floats: 2 units further out on every side. *)
Lemma viewport_floats (x0 y0 x1 y1 : float) :
  viewport (PFloat x0, PFloat y0, PFloat x1, PFloat y1)
  = Ok (PFloat (x0 - 2), PFloat (y0 - 2),
        PFloat (x1 + 2 - (x0 - 2)), PFloat (y1 + 2 - (y0 - 2))).
Proof.
  unfold viewport.
  pose proof (proj2 float_of_int_small) as H2.
  rewrite !(py_sub_float_int _ 2 2 H2). cbn [bind].
  rewrite !(py_add_float_int _ 2 2 H2). cbn [bind].
  reflexivity.
Qed.

Lemma viewport_float_box (b : box) :
  float_box b -> exists vp, viewport b = Ok vp.
Proof.
  intros (x0 & y0 & x1 & y1 & ->). rewrite viewport_floats. eauto.
Qed.


(** ** The rendering loop *)

(** Over records, the loop always completes: it appends, in order, what
    each visible display contributes. *)
Lemma render_loop_contributions (ds : list pyval) :
  Forall is_dict ds ->
  forall elements stderr,
    render_loop ds elements stderr
    = Ok ((elements ++ flat_map shape_elements (filter visible ds))%list,
          (stderr ++ flat_map shape_warnings (filter visible ds))%list).
Proof.
  induction 1 as [|d ds Hd _ IH]; intros elements stderr.
  - cbn. now rewrite !app_nil_r.
  - destruct d; try contradiction.
    cbn [render_loop filter]. rewrite get_dict. cbn [bind].
    destruct (visible (PDict kv)) eqn:Hv; unfold visible in Hv; rewrite Hv; cbn [negb].
    + rewrite get_dict. cbn [bind flat_map].
      unfold shape_elements, shape_warnings, contribution. cbn [kind].
      destruct (render_dispatch _ _) as [[el|]|e]; cbn [fst snd].
      * destruct (truthy (PStr el)); rewrite IH; unfold append;
          now rewrite <- ?app_assoc, ?app_nil_r.
      * rewrite IH. reflexivity.
      * rewrite IH. unfold append. now rewrite <- ?app_assoc.
    + apply IH.
Qed.

(** The phases of [convert_canvas_to_svg] on a canvas record: the bounds,
    the viewport, the sort, the rendering loop, the document. *)
Lemma convert_canvas_to_svg_phases (kv : list (string * pyval)) (ds : list pyval) (idx : Z) :
  field "displays" (PList []) kv = PList ds ->
  convert_canvas_to_svg (PDict kv) idx =
    match ds with
    | [] => Ok (None, [])
    | _ =>
        b <- bounds_loop empty_box ds ;;
        if py_eq (fst (fst (fst b))) (PFloat float_inf) then Ok (None, [])
        else
          vp <- viewport b ;;
          sd <- sorted ds z_key ;;
          r <- render_loop sd [] [] ;;
          Ok (document vp idx (field "title" (PStr "untitled") kv) (fst r), snd r)
    end.
Proof.
  intros Hds. unfold convert_canvas_to_svg. rewrite get_dict, Hds. cbn [bind].
  destruct ds as [|d ds]; [reflexivity|].
  cbn [truthy negb iter bind].
  destruct (bounds_loop empty_box (d :: ds)) as [[[[min_x min_y] max_x] max_y]|];
    cbn [bind fst]; [|reflexivity].
  destruct (py_eq min_x (PFloat float_inf)); [reflexivity|].
  unfold viewport.
  destruct (py_sub min_x (PInt 2)) as [left|]; cbn [bind]; [|reflexivity].
  destruct (py_sub min_y (PInt 2)) as [top|]; cbn [bind]; [|reflexivity].
  destruct (py_add max_x (PInt 2)) as [right|]; cbn [bind]; [|reflexivity].
  destruct (py_add max_y (PInt 2)) as [bottom|]; cbn [bind]; [|reflexivity].
  destruct (py_sub right left) as [vw|]; cbn [bind]; [|reflexivity].
  destruct (py_sub bottom top) as [vh|]; cbn [bind]; [|reflexivity].
  fold z_key. change (fun d0 : pyval => get d0 "zOrder" (PInt 0)) with z_key.
  destruct (sorted (d :: ds) z_key) as [sd|]; cbn [bind]; [|reflexivity].
  destruct (render_loop sd [] []) as [[elements stderr]|]; cbn [bind fst snd]; [|reflexivity].
  rewrite get_dict. cbn [bind].
  destruct elements; reflexivity.
Qed.

Lemma flat_map_nil {A B} (f : A -> list B) (l : list A) :
  (forall a, In a l -> f a = []) -> flat_map f l = [].
Proof.
  induction l as [|a l IH]; intros H; [reflexivity|].
  cbn. rewrite (H a (or_introl eq_refl)), IH; [reflexivity|].
  intros; apply H; now right.
Qed.

Lemma bounds_loop_float_box (ds : list pyval) (b : box) :
  Forall is_dict ds -> bounds_loop empty_box ds = Ok b -> float_box b.
Proof.
  intros Hds. rewrite (bounds_loop_visible ds Hds).
  apply accumulate_float_box, empty_box_float.
Qed.

(** ** Canvas assembly *)

(** C9. Rendering contains its failures.  Over the records of a canvas the
    loop always completes; a display whose mapping raises adds no element
    and one diagnostic, and the displays before and after it are mapped
    all the same; a display of an unrecognized kind adds nothing, without
    a diagnostic.  If the conversion of a canvas raises, the error comes
    from the bounds or from the sort, never from the mapping of a shape. *)
Theorem render_failures_are_contained (ds : list pyval) :
  Forall is_dict ds ->
  (forall elements stderr,
      render_loop ds elements stderr
      = Ok ((elements ++ flat_map shape_elements (filter visible ds))%list,
            (stderr ++ flat_map shape_warnings (filter visible ds))%list))
  /\ (forall d e, render_dispatch (kind d) d = Raise e ->
        shape_elements d = [] /\ shape_warnings d = [Failed_to_render (kind d) e])
  /\ (forall d, recognized (kind d) = false ->
        shape_elements d = [] /\ shape_warnings d = [])
  /\ (forall before d after e,
        ds = (before ++ d :: after)%list ->
        visible d = true ->
        render_dispatch (kind d) d = Raise e ->
        render_loop ds [] []
        = Ok ((flat_map shape_elements (filter visible before)
               ++ flat_map shape_elements (filter visible after))%list,
              (flat_map shape_warnings (filter visible before)
               ++ Failed_to_render (kind d) e
                  :: flat_map shape_warnings (filter visible after))%list))
  /\ (forall kv idx e,
        field "displays" (PList []) kv = PList ds ->
        convert_canvas_to_svg (PDict kv) idx = Raise e ->
        bounds_loop empty_box ds = Raise e \/ sorted ds z_key = Raise e).
Proof.
  intros Hds. split; [|split; [|split; [|split]]].
  - apply render_loop_contributions, Hds.
  - intros d e H. unfold shape_elements, shape_warnings, contribution.
    rewrite H. split; reflexivity.
  - intros d H. unfold shape_elements, shape_warnings, contribution, render_dispatch.
    unfold recognized in H.
    destruct (py_eq (kind d) (PStr "PATH")); [discriminate|].
    destruct (py_eq (kind d) (PStr "RECT")); [discriminate|].
    destruct (py_eq (kind d) (PStr "LINE")); [discriminate|].
    destruct (py_eq (kind d) (PStr "BITMAP")); [discriminate|].
    destruct (py_eq (kind d) (PStr "TEXT")); [discriminate|].
    split; reflexivity.
  - intros before d after e -> Hv Hraise.
    rewrite (render_loop_contributions _ Hds). cbn [app].
    rewrite filter_app, !flat_map_app. cbn [filter]. rewrite Hv. cbn [flat_map].
    unfold shape_elements at 2, shape_warnings at 2, contribution.
    rewrite Hraise. reflexivity.
  - intros kv idx e Hfield. rewrite (convert_canvas_to_svg_phases kv ds idx Hfield).
    destruct ds as [|d0 ds0]; [discriminate|].
    destruct (bounds_loop empty_box (d0 :: ds0)) as [b|e'] eqn:Eb; cbn [bind];
      [|intros [= <-]; now left].
    destruct (py_eq _ _); [discriminate|].
    destruct (viewport_float_box b (bounds_loop_float_box _ b Hds Eb)) as [vp ->].
    cbn [bind].
    destruct (sorted (d0 :: ds0) z_key) as [sd|e'] eqn:Es; cbn [bind];
      [|intros [= <-]; now right].
    assert (Hsd : Forall is_dict sd)
      by (eapply Permutation_Forall; [apply (sorted_permutation _ _ _ Es) | exact Hds]).
    rewrite (render_loop_contributions sd Hsd). discriminate.
Qed.

(** C6. A canvas without a visible display, the empty canvas included,
    yields no document; neither does a canvas none of whose visible
    displays maps to an element. *)
Theorem no_visible_output_no_document
    (kv : list (string * pyval)) (ds : list pyval) (idx : Z) :
  field "displays" (PList []) kv = PList ds ->
  Forall is_dict ds ->
  ((forall d, In d ds -> visible d = false) ->
     convert_canvas_to_svg (PDict kv) idx = Ok (None, []))
  /\ ((forall d, In d ds -> visible d = true -> shape_elements d = []) ->
        forall doc stderr, convert_canvas_to_svg (PDict kv) idx <> Ok (Some doc, stderr)).
Proof.
  intros Hfield Hds.
  rewrite (convert_canvas_to_svg_phases kv ds idx Hfield). split.
  - intros Hinv. destruct ds as [|d0 ds0]; [reflexivity|].
    rewrite (bounds_loop_visible _ Hds).
    assert (E : filter visible (d0 :: ds0) = []).
    { generalize (d0 :: ds0), Hinv. clear. intros l H.
      induction l as [|d l IH]; [reflexivity|].
      cbn. rewrite (H d (or_introl eq_refl)). apply IH. intros; apply H; now right. }
    rewrite E. reflexivity.
  - intros Hempty doc stderr. destruct ds as [|d0 ds0]; [discriminate|].
    destruct (bounds_loop empty_box (d0 :: ds0)) as [b|]; cbn [bind]; [|discriminate].
    destruct (py_eq _ _); [discriminate|].
    destruct (viewport b) as [vp|]; cbn [bind]; [|discriminate].
    destruct (sorted (d0 :: ds0) z_key) as [sd|] eqn:Es; cbn [bind]; [|discriminate].
    pose proof (sorted_permutation _ _ _ Es) as Hperm.
    assert (Hsd : Forall is_dict sd) by (eapply Permutation_Forall; eassumption).
    rewrite (render_loop_contributions sd Hsd). cbn [bind fst snd app].
    rewrite flat_map_nil; [discriminate|].
    intros d Hin. apply filter_In in Hin as [Hin Hv].
    apply Hempty; [|exact Hv].
    eapply Permutation_in; [apply Permutation_sym, Hperm | exact Hin].
Qed.

Lemma integer_z_order_is_dict (ds : list pyval) :
  Forall integer_z_order ds -> Forall is_dict ds.
Proof. apply Forall_impl. intros [] H; try contradiction. exact I. Qed.





(** ** The properties on the sample canvas *)

Lemma render_failures_are_contained_witness :
  render_loop sample_displays [] []
  = Ok (([] ++ flat_map shape_elements (filter visible sample_displays))%list,
        ([] ++ flat_map shape_warnings (filter visible sample_displays))%list).
Proof.
  apply (render_failures_are_contained sample_displays).
  repeat constructor.
Defined.

Lemma no_visible_output_no_document_witness :
  convert_canvas_to_svg (PDict hidden_canvas) 0 = Ok (None, []).
Proof.
  apply (no_visible_output_no_document hidden_canvas [sample_hidden_text] 0 eq_refl).
  - repeat constructor.
  - intros d [<-|[]]. reflexivity.
Defined.



(** The sample canvas, converted: the rectangle without [zOrder] first, the
    broken rectangle reported and skipped, the line last, the hidden text
    absent from both the box and the document. *)
Example convert_sample_canvas :
  convert_canvas_to_svg (PDict sample_canvas) 1
  = Ok (Some (svg_document (PFloat (-3)) (PFloat (-3)) (PFloat 16) (PFloat 13) 1 (PStr "T")
                [element "rect" "translate(5, 5)"
                   (rect_attributes (PFloat (-5)) (PFloat (-2)) (PInt 10) (PInt 4)
                      None "none" None);
                 element "line" "translate(1.5, 5) rotate(90.0) scale(2, 1)"
                   (line_attributes (PInt 3) (PFloat 4.25) default_stroke)]),
        [Failed_to_render (PStr "RECT") TypeError]).
Proof. vm_compute. reflexivity. Qed.

(** The order in which the sample displays are drawn: the two displays
    without [zOrder] first, in their original order, then 1, then 5. *)
Example sorted_sample_displays :
  sorted sample_displays z_key
  = Ok [sample_rect; sample_hidden_text; sample_broken_rect; sample_line].
Proof. vm_compute. reflexivity. Qed.

(** A key that [<] does not order against the others makes [sorted], and
    with it the conversion, raise. *)
Example sorted_mixed_keys :
  sorted [PDict [("zOrder", PInt 1)]; PDict [("zOrder", PStr "top")]] z_key
  = Raise TypeError.
Proof. vm_compute. reflexivity. Qed.

(* ================================================================== *)
(** * Further properties of the script *)
(* ================================================================== *)

Import Driver Notions.

(** ** Colors, fills and strokes *)

(** Three bytes print as six hexadecimal digits that read back as the
    24-bit number they make up. *)
Lemma hex_of_bytes (r g b : Z) :
  0 <= r < 256 -> 0 <= g < 256 -> 0 <= b < 256 ->
  exists h : string,
    "#" ++ format_02x r ++ format_02x g ++ format_02x b = String "#" h
    /\ String.length h = 6%nat
    /\ all_hex h = true
    /\ int_base16 h = Some (65536 * r + 256 * g + b).
Proof.
  intros Hr Hg Hb.
  rewrite !format_02x_byte by assumption.
  eexists. split; [cbn; reflexivity|].
  assert (Hd : forall v, 0 <= v < 256 -> 0 <= v / 16 < 16 /\ 0 <= v mod 16 < 16).
  { intros v Hv. split; [split; [apply Z.div_pos; lia | apply Z.div_lt_upper_bound; lia]
                        | apply Z.mod_pos_bound; lia]. }
  destruct (Hd r Hr) as [Hr1 Hr2], (Hd g Hg) as [Hg1 Hg2], (Hd b Hb) as [Hb1 Hb2].
  split; [reflexivity|]. split.
  - cbn [all_hex]. rewrite !hex_value_digit_char by assumption. reflexivity.
  - unfold int_base16. cbn [int_base16_acc].
    rewrite !hex_value_digit_char by assumption. f_equal.
    pose proof (Z.div_mod r 16 ltac:(lia)).
    pose proof (Z.div_mod g 16 ltac:(lia)).
    pose proof (Z.div_mod b 16 ltac:(lia)).
    lia.
Qed.

Lemma low_24_bits (n : Z) :
  65536 * ((n / 65536) mod 256) + 256 * ((n / 256) mod 256) + n mod 256
  = n mod 16777216.
Proof.
  change 16777216 with (256 * 65536).
  rewrite (Z.rem_mul_r n 256 65536) by lia.
  change 65536 with (256 * 256) at 3.
  rewrite (Z.rem_mul_r (n / 256) 256 256) by lia.
  rewrite Z.div_div by lia. change (256 * 256) with 65536. lia.
Qed.

(** X1. Every number is a color: whatever [int(v)] is, negative or beyond
    24 bits, the result is ['#'] and the six hexadecimal digits of its low
    24 bits. *)
Theorem int_color_to_hex_low_24_bits (v : pyval) (a : num) (n : Z) :
  as_num v = Some a ->
  int_of_num a = Ok n ->
  exists h : string,
    int_color_to_hex v = Ok (String "#" h)
    /\ String.length h = 6%nat
    /\ all_hex h = true
    /\ int_base16 h = Some (n mod 16777216).
Proof.
  intros Ha Hn.
  assert (E : int_color_to_hex v
              = Ok ("#" ++ format_02x ((n / 65536) mod 256)
                        ++ format_02x ((n / 256) mod 256) ++ format_02x (n mod 256))).
  { unfold int_color_to_hex.
    destruct v; try discriminate; rewrite Ha, Hn; cbn [bind];
      rewrite !land_255, !Z.shiftr_div_pow2 by lia; reflexivity. }
  rewrite E, <- low_24_bits.
  destruct (hex_of_bytes ((n / 65536) mod 256) ((n / 256) mod 256) (n mod 256))
    as (h & Hh & Hlen & Hhex & Hback); try (apply Z.mod_pos_bound; lia).
  exists h. rewrite Hh. auto.
Qed.

Lemma int_color_to_hex_low_24_bits_witness :
  exists h : string,
    int_color_to_hex (PFloat (-1.5)) = Ok (String "#" h)
    /\ String.length h = 6%nat
    /\ all_hex h = true
    /\ int_base16 h = Some ((-1) mod 16777216).
Proof.
  apply (int_color_to_hex_low_24_bits (PFloat (-1.5)) (NFloat (-1.5)) (-1)); reflexivity.
Defined.

Lemma starts_with_hash (x : string) : startswith (String "#" x) "#" = true.
Proof.
  unfold startswith. cbn [String.prefix].
  destruct (ascii_dec "#" "#"); [destruct x; reflexivity | congruence].
Qed.

Lemma numeric_color_starts_with_hash (v : pyval) (s : string) :
  isinstance_str v = false -> int_color_to_hex v = Ok s -> startswith s "#" = true.
Proof.
  unfold int_color_to_hex. intros Hv.
  destruct v; try discriminate; cbn [as_num];
    try (intros [= <-]; apply starts_with_hash).
  all: destruct (int_of_num _); cbn [bind];
    [intros [= <-]; apply starts_with_hash | discriminate].
Qed.

(** X2. Color resolution is idempotent: resolving its own result again
    returns it unchanged, for every input on which it returns. *)
Theorem int_color_to_hex_idempotent (v : pyval) (s : string) :
  int_color_to_hex v = Ok s -> int_color_to_hex (PStr s) = Ok s.
Proof.
  intros H.
  destruct (isinstance_str v) eqn:Hv.
  - destruct v; try discriminate. rename s0 into t.
    unfold int_color_to_hex in H.
    destruct (startswith t "#") eqn:Ht.
    + injection H as <-. now apply int_color_to_hex_hash.
    + destruct (int_of_str t) as [n|e] eqn:En.
      * apply int_color_to_hex_hash.
        apply (numeric_color_starts_with_hash (PInt n)); [reflexivity | exact H].
      * injection H as <-. now apply (int_color_to_hex_verbatim t e).
  - apply int_color_to_hex_hash.
    now apply (numeric_color_starts_with_hash v).
Qed.

Lemma int_color_to_hex_idempotent_witness :
  int_color_to_hex (PStr "#0000ff") = Ok "#0000ff".
Proof.
  apply (int_color_to_hex_idempotent (PStr " 255 ")). reflexivity.
Defined.

Lemma py_lt_non_number (v : pyval) (n : Z) :
  as_num v = None -> py_lt v (PInt n) = Raise TypeError.
Proof. destruct v; cbn; intros; congruence. Qed.

(** X3. The fill of a display.  A fill that is absent or not visible is
    ["none"] whatever else the record holds.  A visible fill is its
    resolved color: the opacity does not enter the result, but it is
    compared with 1 all the same, so that an opacity that is not a number
    makes a fill that would resolve raise [TypeError]. *)
Theorem get_fill_color_cases (kv fkv : list (string * pyval)) :
  field "fill" (PDict []) kv = PDict fkv ->
  let d := PDict kv in
  let visible := truthy (field "visible" (PBool false) fkv) in
  let color := field "color" (PInt 0) fkv in
  let alpha := field "alpha" (PInt 1) fkv in
  (visible = false -> get_fill_color d = Ok "none")
  /\ (visible = true -> (exists a, as_num alpha = Some a) ->
        get_fill_color d = int_color_to_hex color)
  /\ (visible = true -> as_num alpha = None ->
        forall hex, int_color_to_hex color = Ok hex ->
        get_fill_color d = Raise TypeError).
Proof.
  intros Hfill d visible color alpha.
  assert (E : get_fill_color d
              = if visible then
                  hex_color <- int_color_to_hex color ;;
                  c <- py_lt alpha (PInt 1) ;;
                  Ok hex_color
                else Ok "none").
  { unfold get_fill_color, d. rewrite get_dict, Hfill. cbn [bind]. read_fields.
    fold visible color alpha. destruct visible; cbn [negb]; [|reflexivity].
    destruct (int_color_to_hex color); cbn [bind]; [|reflexivity].
    destruct (py_lt alpha (PInt 1)) as [[|]|]; reflexivity. }
  rewrite E. split; [|split].
  - intros ->. reflexivity.
  - intros -> [a Ha].
    rewrite (py_lt_num alpha (PInt 1) a (NInt 1) Ha eq_refl).
    destruct (int_color_to_hex color); reflexivity.
  - intros -> Ha hex ->. cbn [bind]. now rewrite py_lt_non_number.
Qed.

Lemma get_fill_color_cases_witness :
  get_fill_color (PDict [("fill", PDict [("visible", PBool true); ("alpha", PNone)])])
  = Raise TypeError.
Proof.
  refine (proj2 (proj2 (get_fill_color_cases
                          [("fill", PDict [("visible", PBool true); ("alpha", PNone)])]
                          [("visible", PBool true); ("alpha", PNone)] eq_refl))
            eq_refl eq_refl "#000000" eq_refl).
Defined.

(** X4. The stroke of a display.  A visible stroke resolves exactly when
    its color does, and nothing but the color is looked into: width,
    opacity, cap and join are passed on as they are, with the defaults 1,
    1, ["butt"] and ["miter"].  A visible stroke without any other field
    is the stroke [render_line] substitutes for a hidden one. *)
Theorem get_stroke_props_visible (kv skv : list (string * pyval)) :
  field "stroke" (PDict []) kv = PDict skv ->
  truthy (field "visible" (PBool false) skv) = true ->
  get_stroke_props (PDict kv)
  = (hex <- int_color_to_hex (field "color" (PInt 0) skv) ;;
     Ok (Some {| sp_color := hex;
                 sp_width := field "width" (PInt 1) skv;
                 sp_alpha := field "alpha" (PInt 1) skv;
                 sp_cap := field "cap" (PStr "butt") skv;
                 sp_join := field "join" (PStr "miter") skv |}))
  /\ (lookup "color" skv = None -> lookup "width" skv = None ->
      lookup "alpha" skv = None -> lookup "cap" skv = None ->
      lookup "join" skv = None ->
      get_stroke_props (PDict kv) = Ok (Some default_stroke)).
Proof.
  intros Hstroke Hvisible.
  assert (E : get_stroke_props (PDict kv)
              = (hex <- int_color_to_hex (field "color" (PInt 0) skv) ;;
                 Ok (Some {| sp_color := hex;
                             sp_width := field "width" (PInt 1) skv;
                             sp_alpha := field "alpha" (PInt 1) skv;
                             sp_cap := field "cap" (PStr "butt") skv;
                             sp_join := field "join" (PStr "miter") skv |}))).
  { unfold get_stroke_props. rewrite get_dict, Hstroke. cbn [bind].
    rewrite get_dict. cbn [bind]. rewrite Hvisible. cbn [negb]. read_fields.
    reflexivity. }
  split; [exact E|].
  intros H1 H2 H3 H4 H5. rewrite E. unfold field.
  rewrite H1, H2, H3, H4, H5. reflexivity.
Qed.

Lemma get_stroke_props_visible_witness :
  get_stroke_props (PDict [("stroke", PDict [("visible", PBool true)])])
  = Ok (Some default_stroke).
Proof.
  refine (proj2 (get_stroke_props_visible
                   [("stroke", PDict [("visible", PBool true)])]
                   [("visible", PBool true)] eq_refl eq_refl)
            eq_refl eq_refl eq_refl eq_refl eq_refl).
Defined.

(** ** Transforms *)

Lemma starts_with_translate (u : string) :
  startswith ("translate(" ++ u) "translate(" = true.
Proof. destruct u; vm_compute; reflexivity. Qed.

Lemma join_head (a : string) (rest : list string) :
  exists u, join " " (a :: rest) = a ++ u.
Proof.
  unfold join. destruct rest as [|b rest]; cbn [String.concat].
  - exists "". now rewrite append_nil_r.
  - eexists. reflexivity.
Qed.

(** The list of transforms always opens with the translation. *)
Lemma transforms_of_head (d : pyval) (l : list string) :
  transforms_of d = Ok l ->
  exists x y rest, l = translation x y :: rest.
Proof.
  unfold transforms_of.
  destruct (get d "x" (PInt 0)) as [x|]; cbn [bind]; [|discriminate].
  destruct (get d "y" (PInt 0)) as [y|]; cbn [bind]; [|discriminate].
  destruct (get d "angle" (PInt 0)) as [angle|]; cbn [bind]; [|discriminate].
  destruct (get d "scale" _) as [scale|]; cbn [bind]; [|discriminate].
  destruct (get scale "x" (PInt 1)) as [sx|]; cbn [bind]; [|discriminate].
  destruct (get scale "y" (PInt 1)) as [sy|]; cbn [bind]; [|discriminate].
  destruct (py_ne angle (PInt 0)).
  - destruct (py_abs angle) as [a|]; cbn [bind]; [|discriminate].
    destruct (py_mul (PInt 2) (PFloat math_pi)) as [two_pi|]; cbn [bind]; [|discriminate].
    destruct (py_gt a two_pi) as [c|]; cbn [bind]; [|discriminate].
    destruct (if c then _ else _) as [deg0|]; cbn [bind]; [|discriminate].
    destruct (py_mul angle (PInt 180)) as [t|]; cbn [bind]; [|discriminate].
    destruct (py_truediv t (PFloat math_pi)) as [deg|]; cbn [bind]; [|discriminate].
    destruct (py_ne sx (PInt 1) || py_ne sy (PInt 1)); intros [= <-];
      exists x, y; eexists; reflexivity.
  - cbn [bind].
    destruct (py_ne sx (PInt 1) || py_ne sy (PInt 1)); intros [= <-];
      exists x, y; eexists; reflexivity.
Qed.

(** X5. Whatever the display, a transform that is returned starts with the
    translation: nothing is ever put in front of [translate(]. *)
Theorem build_transform_starts_with_translate (d : pyval) (transform : string) :
  build_transform d = Ok transform ->
  startswith transform "translate(" = true.
Proof.
  unfold build_transform.
  destruct (transforms_of d) as [l|] eqn:E; cbn [bind]; [|discriminate].
  intros [= <-].
  destruct (transforms_of_head d l E) as (x & y & rest & ->).
  destruct (join_head (translation x y) rest) as [u ->].
  unfold translation. rewrite !append_assoc.
  apply starts_with_translate.
Qed.

Lemma build_transform_starts_with_translate_witness :
  startswith "translate(1.5, 5) rotate(90.0) scale(2, 1)" "translate(" = true.
Proof.
  apply (build_transform_starts_with_translate sample_line). reflexivity.
Defined.

Lemma py_ne_non_number (v : pyval) (n : Z) :
  as_num v = None -> py_ne v (PInt n) = true.
Proof. destruct v; cbn; intros; congruence. Qed.

(** X6. Where a transform fails.  A scale that is present but not a record
    raises [AttributeError]; with a scale record, an angle that is not a
    number (null, a string, a list) raises [TypeError], since it differs
    from 0 and has no absolute value. *)
Theorem build_transform_failures (kv : list (string * pyval)) :
  ((forall skv, scale_of kv <> PDict skv) ->
     build_transform (PDict kv) = Raise AttributeError)
  /\ (forall skv, scale_of kv = PDict skv ->
        as_num (field "angle" (PInt 0) kv) = None ->
        build_transform (PDict kv) = Raise TypeError).
Proof.
  split.
  - intros Hscale. unfold build_transform, transforms_of.
    do 4 (rewrite get_dict; cbn [bind]).
    change (field "scale" _ kv) with (scale_of kv).
    destruct (scale_of kv); try reflexivity.
    now contradiction (Hscale kv0).
  - intros skv Hscale Hangle. unfold build_transform, transforms_of.
    do 4 (rewrite get_dict; cbn [bind]).
    change (field "scale" _ kv) with (scale_of kv). rewrite Hscale.
    do 2 (rewrite get_dict; cbn [bind]).
    rewrite (py_ne_non_number _ 0 Hangle).
    unfold py_abs. rewrite Hangle. reflexivity.
Qed.

(** ** Shapes *)

(** Running a mapper whose result is known: every call it makes in turn
    returned, every test went one way. *)
Ltac run_mapper :=
  repeat (cbn [bind];
          match goal with
          | |- context [bind ?m _] => destruct m; try discriminate
          | |- context [if ?b then _ else _] => destruct b
          | |- context [match ?o with Some _ => _ | None => _ end] => destruct o
          end).

Ltac empty_or_tag :=
  intros [= <-]; first [left; reflexivity | right; eexists; reflexivity].

Lemma render_path_tagged (d : pyval) (s : string) :
  render_path d = Ok s -> empty_or_tagged s.
Proof. unfold render_path, empty_or_tagged. run_mapper; empty_or_tag. Qed.

Lemma render_rect_tagged (d : pyval) (s : string) :
  render_rect d = Ok s -> empty_or_tagged s.
Proof. unfold render_rect, empty_or_tagged. run_mapper; empty_or_tag. Qed.

Lemma render_line_tagged (d : pyval) (s : string) :
  render_line d = Ok s -> empty_or_tagged s.
Proof. unfold render_line, empty_or_tagged. run_mapper; empty_or_tag. Qed.

Lemma render_bitmap_tagged (d : pyval) (s : string) :
  render_bitmap d = Ok s -> empty_or_tagged s.
Proof. unfold render_bitmap, empty_or_tagged. run_mapper; empty_or_tag. Qed.

Lemma render_text_tagged (d : pyval) (s : string) :
  render_text d = Ok s -> empty_or_tagged s.
Proof. unfold render_text, empty_or_tagged. run_mapper; empty_or_tag. Qed.

(** X7. A path without commands and a bitmap without payload map to the
    empty string before any other field is read, so whatever the record
    holds besides, they add neither an element nor a warning. *)
Theorem empty_payload_contributes_nothing (kv : list (string * pyval)) :
  without_payload kv ->
  render_dispatch (kind (PDict kv)) (PDict kv) = Ok (Some "")
  /\ shape_elements (PDict kv) = []
  /\ shape_warnings (PDict kv) = [].
Proof.
  intros H.
  assert (E : render_dispatch (kind (PDict kv)) (PDict kv) = Ok (Some "")).
  { cbn [kind]. destruct H as [[Ht Hp] | [Ht Hp]]; rewrite Ht; unfold render_dispatch.
    - cbn [py_eq String.eqb Ascii.eqb Bool.eqb].
      unfold render_path. rewrite get_dict. cbn [bind]. now rewrite Hp.
    - replace (py_eq (PStr "BITMAP") (PStr "PATH")) with false by reflexivity.
      replace (py_eq (PStr "BITMAP") (PStr "RECT")) with false by reflexivity.
      replace (py_eq (PStr "BITMAP") (PStr "LINE")) with false by reflexivity.
      replace (py_eq (PStr "BITMAP") (PStr "BITMAP")) with true by reflexivity.
      unfold render_bitmap. rewrite get_dict. cbn [bind]. now rewrite Hp. }
  split; [exact E|].
  unfold shape_elements, shape_warnings, contribution. rewrite E. split; reflexivity.
Qed.

Lemma empty_payload_contributes_nothing_witness :
  shape_elements (PDict [("type", PStr "BITMAP"); ("fill", PNone); ("scale", PNone)]) = [].
Proof.
  apply (empty_payload_contributes_nothing
           [("type", PStr "BITMAP"); ("fill", PNone); ("scale", PNone)]).
  right. split; reflexivity.
Defined.

Lemma render_dispatch_tagged (dtype d : pyval) (el : string) :
  render_dispatch dtype d = Ok (Some el) -> empty_or_tagged el.
Proof.
  unfold render_dispatch.
  destruct (py_eq dtype (PStr "PATH")).
  { destruct (render_path d) eqn:E; cbn [bind]; [|discriminate].
    intros [= <-]. now apply (render_path_tagged d). }
  destruct (py_eq dtype (PStr "RECT")).
  { destruct (render_rect d) eqn:E; cbn [bind]; [|discriminate].
    intros [= <-]. now apply (render_rect_tagged d). }
  destruct (py_eq dtype (PStr "LINE")).
  { destruct (render_line d) eqn:E; cbn [bind]; [|discriminate].
    intros [= <-]. now apply (render_line_tagged d). }
  destruct (py_eq dtype (PStr "BITMAP")).
  { destruct (render_bitmap d) eqn:E; cbn [bind]; [|discriminate].
    intros [= <-]. now apply (render_bitmap_tagged d). }
  destruct (py_eq dtype (PStr "TEXT")).
  { destruct (render_text d) eqn:E; cbn [bind]; [|discriminate].
    intros [= <-]. now apply (render_text_tagged d). }
  discriminate.
Qed.

(** X8. What a display adds to the document is markup that opens a tag:
    the empty string of a shape without payload never becomes an element,
    and no mapper returns anything else. *)
Theorem elements_open_a_tag (d : pyval) (el : string) :
  In el (shape_elements d) -> exists u, el = String "<" u.
Proof.
  unfold shape_elements, contribution.
  destruct (render_dispatch (kind d) d) as [[s|]|e] eqn:E; cbn [fst]; try contradiction.
  destruct (truthy (PStr s)) eqn:Hs; [|contradiction].
  intros [<- | []].
  destruct (render_dispatch_tagged _ _ _ E) as [-> | Hu]; [discriminate | exact Hu].
Qed.

Lemma elements_open_a_tag_witness :
  exists u,
    element "rect" "translate(5, 5)"
      (rect_attributes (PFloat (-5)) (PFloat (-2)) (PInt 10) (PInt 4) None "none" None)
    = String "<" u.
Proof.
  apply (elements_open_a_tag sample_rect). left. reflexivity.
Defined.

Lemma contribution_at_most_one (d : pyval) :
  (List.length (shape_elements d) + List.length (shape_warnings d) <= 1)%nat.
Proof.
  unfold shape_elements, shape_warnings, contribution.
  destruct (render_dispatch (kind d) d) as [[s|]|e]; cbn [fst snd].
  - destruct (truthy (PStr s)); cbn; lia.
  - cbn; lia.
  - cbn; lia.
Qed.

Lemma contributions_bounded (l : list pyval) :
  (List.length (flat_map shape_elements l) + List.length (flat_map shape_warnings l)
   <= List.length l)%nat.
Proof.
  induction l as [|d l IH]; [reflexivity|].
  cbn [flat_map List.length]. rewrite !length_app.
  pose proof (contribution_at_most_one d). lia.
Qed.

(** X9. Each visible display accounts for at most one line of output: an
    element or a warning, never both.  So the elements and the warnings of
    a canvas together never outnumber its visible displays. *)
Theorem one_outcome_per_visible_display (ds : list pyval) :
  Forall is_dict ds ->
  exists elements stderr,
    render_loop ds [] [] = Ok (elements, stderr)
    /\ (List.length elements + List.length stderr
        <= List.length (filter visible ds))%nat.
Proof.
  intros Hds. rewrite (render_loop_contributions ds Hds). cbn [app].
  do 2 eexists. split; [reflexivity | apply contributions_bounded].
Qed.

Lemma one_outcome_per_visible_display_witness :
  exists elements stderr,
    render_loop sample_displays [] [] = Ok (elements, stderr)
    /\ (List.length elements + List.length stderr
        <= List.length (filter visible sample_displays))%nat.
Proof.
  apply (one_outcome_per_visible_display sample_displays). repeat constructor.
Defined.

(** ** Canvases *)

Lemma filter_visible_idempotent (l : list pyval) :
  filter visible (filter visible l) = filter visible l.
Proof.
  induction l as [|d l IH]; [reflexivity|].
  cbn [filter]. destruct (visible d) eqn:E; [|exact IH].
  cbn [filter]. now rewrite E, IH.
Qed.

Lemma permutation_filter {A} (p : A -> bool) (l l' : list A) :
  Permutation l l' -> Permutation (filter p l) (filter p l').
Proof.
  induction 1 as [|x l l' _ IH|x y l|l l' l'' _ IH1 _ IH2]; cbn [filter].
  - constructor.
  - destruct (p x); [now constructor | exact IH].
  - destruct (p x), (p y); try apply Permutation_refl. apply perm_swap.
  - eapply Permutation_trans; eassumption.
Qed.

(** X10. The number of visible displays that [main] reports for a canvas
    is the number of displays the rendering loop maps. *)
Theorem visible_count_is_mapped_count (ds : list pyval) :
  Forall is_dict ds ->
  visible_count ds = Ok (Z.of_nat (List.length (filter visible ds))).
Proof.
  induction 1 as [|d ds Hd _ IH]; [reflexivity|].
  destruct d; try contradiction.
  cbn [visible_count filter]. rewrite get_dict, IH. cbn [bind visible].
  destruct (truthy _); [|reflexivity].
  cbn [List.length]. f_equal. lia.
Qed.

Lemma visible_count_is_mapped_count_witness :
  visible_count sample_displays
  = Ok (Z.of_nat (List.length (filter visible sample_displays))).
Proof.
  apply (visible_count_is_mapped_count sample_displays). repeat constructor.
Defined.

(** X11. Whatever values [zOrder] takes, when the sort returns, the
    displays that are mapped are the visible displays of the canvas, each
    of them once: none is dropped and none is drawn twice. *)
Theorem every_visible_display_is_mapped_once (ds sd : list pyval) :
  Forall is_dict ds ->
  sorted ds z_key = Ok sd ->
  Permutation (filter visible ds) (filter visible sd)
  /\ render_loop sd [] []
     = Ok (flat_map shape_elements (filter visible sd),
           flat_map shape_warnings (filter visible sd)).
Proof.
  intros Hds Hsorted.
  pose proof (sorted_permutation _ _ _ Hsorted) as Hperm.
  split; [now apply permutation_filter|].
  assert (Hsd : Forall is_dict sd) by (eapply Permutation_Forall; eassumption).
  now rewrite (render_loop_contributions sd Hsd).
Qed.

Lemma every_visible_display_is_mapped_once_witness :
  Permutation (filter visible sample_displays)
    (filter visible [sample_rect; sample_hidden_text; sample_broken_rect; sample_line]).
Proof.
  apply (every_visible_display_is_mapped_once sample_displays).
  - repeat constructor.
  - reflexivity.
Defined.

Lemma forall_filter {A} (P : A -> Prop) (p : A -> bool) (l : list A) :
  Forall P l -> Forall P (filter p l).
Proof.
  induction 1 as [|z m Hz _ IH]; cbn [filter]; [constructor|].
  destruct (p z); [constructor; assumption | exact IH].
Qed.

(** Filtering commutes with the stable sort. *)
Section FilterSort.
Context {A : Type} (key : A -> Z) (p : A -> bool).

Lemma insert_by_least (x : A) (l : list A) :
  Forall (fun z => key x <= key z) l -> insert_by key x l = x :: l.
Proof.
  destruct 1 as [|y l Hy _]; [reflexivity|].
  cbn [insert_by]. destruct (key y <? key x) eqn:E; [|reflexivity].
  apply Z.ltb_lt in E. lia.
Qed.

Lemma filter_insert_by (x : A) (l : list A) :
  ascending key l ->
  filter p (insert_by key x l)
  = if p x then insert_by key x (filter p l) else filter p l.
Proof.
  unfold ascending. induction 1 as [|y l Hl IH Hy]; cbn [insert_by filter].
  - destruct (p x); reflexivity.
  - destruct (key y <? key x) eqn:E; cbn [filter].
    + rewrite IH. destruct (p x), (p y); cbn [insert_by]; rewrite ?E; reflexivity.
    + apply Z.ltb_ge in E.
      destruct (p x); [|reflexivity].
      symmetry. apply insert_by_least.
      change (Forall (fun z => key x <= key z) (filter p (y :: l))).
      apply forall_filter.
      constructor; [exact E|]. eapply Forall_impl; [|exact Hy]. cbn. intros; lia.
Qed.

Lemma filter_sort_by (l : list A) :
  filter p (sort_by key l) = sort_by key (filter p l).
Proof.
  induction l as [|x l IH]; [reflexivity|].
  cbn [sort_by filter].
  rewrite (filter_insert_by x _ (sort_by_ascending key l)), IH.
  destruct (p x); reflexivity.
Qed.

End FilterSort.

(** X12. In a canvas whose displays, visible and hidden, all have a
    [zOrder] that is absent or an integer, the hidden displays leave no
    trace: the canvas converts to the same document, with the same
    warnings or the same error, as the canvas without them.  The condition
    bears on every display, since the sort compares the keys of hidden
    displays with those of visible ones. *)
Theorem hidden_displays_leave_no_trace
    (kv kv' : list (string * pyval)) (ds : list pyval) (idx : Z) :
  field "displays" (PList []) kv = PList ds ->
  field "displays" (PList []) kv' = PList (filter visible ds) ->
  field "title" (PStr "untitled") kv = field "title" (PStr "untitled") kv' ->
  Forall integer_z_order ds ->
  convert_canvas_to_svg (PDict kv) idx = convert_canvas_to_svg (PDict kv') idx.
Proof.
  intros Hds Hds' Htitle Hz.
  pose proof (integer_z_order_is_dict ds Hz) as Hdict.
  pose proof (forall_filter integer_z_order visible ds Hz) as Hz'.
  pose proof (integer_z_order_is_dict _ Hz') as Hdict'.
  assert (Hsd : Forall is_dict (sort_by z_order ds)).
  { eapply Permutation_Forall; [apply sort_by_permutation | exact Hdict]. }
  assert (Hsd' : Forall is_dict (sort_by z_order (filter visible ds))).
  { eapply Permutation_Forall; [apply sort_by_permutation | exact Hdict']. }
  pose proof (render_loop_contributions _ Hsd [] []) as Hloop.
  pose proof (render_loop_contributions _ Hsd' [] []) as Hloop'.
  assert (Hf : filter visible (sort_by z_order (filter visible ds))
               = filter visible (sort_by z_order ds)).
  { rewrite <- (filter_sort_by z_order visible ds). apply filter_visible_idempotent. }
  rewrite Hf in Hloop'.
  pose proof (bounds_loop_visible ds Hdict empty_box) as Hbox.
  pose proof (bounds_loop_visible _ Hdict' empty_box) as Hbox'.
  rewrite filter_visible_idempotent in Hbox'.
  pose proof (sorted_z_order ds Hz) as Hsort.
  pose proof (sorted_z_order _ Hz') as Hsort'.
  rewrite (convert_canvas_to_svg_phases kv ds idx Hds).
  rewrite (convert_canvas_to_svg_phases kv' _ idx Hds').
  rewrite Hbox, Hbox', <- Htitle.
  destruct ds as [|d0 ds0]; [reflexivity|].
  destruct (filter visible (d0 :: ds0)) as [|v0 vs] eqn:E; [reflexivity|].
  destruct (accumulate empty_box (v0 :: vs)) as [b|]; cbn [bind]; [|reflexivity].
  destruct (py_eq _ _); [reflexivity|].
  destruct (viewport b) as [vp|]; cbn [bind]; [|reflexivity].
  rewrite Hsort, Hsort'. cbn [bind]. rewrite Hloop, Hloop'. reflexivity.
Qed.

Lemma hidden_displays_leave_no_trace_witness :
  convert_canvas_to_svg (PDict sample_canvas) 1
  = convert_canvas_to_svg
      (PDict [("title", PStr "T");
              ("displays", PList [sample_line; sample_rect; sample_broken_rect])]) 1.
Proof.
  apply (hidden_displays_leave_no_trace sample_canvas
           [("title", PStr "T");
            ("displays", PList [sample_line; sample_rect; sample_broken_rect])]
           sample_displays 1 eq_refl eq_refl eq_refl).
  repeat constructor.
Defined.

(** The condition of X12 cannot be confined to the hidden displays: next to
    a line whose [zOrder] is a string, a hidden display of [zOrder] 1 makes
    the sort raise, and without it the line is drawn. *)
Example hidden_display_with_mixed_keys :
  let line := PDict [("type", PStr "LINE"); ("zOrder", PStr "top")] in
  let hidden := PDict [("visible", PBool false); ("zOrder", PInt 1)] in
  convert_canvas_to_svg (PDict [("displays", PList [line; hidden])]) 0 = Raise TypeError
  /\ exists doc,
       convert_canvas_to_svg (PDict [("displays", PList [line])]) 0 = Ok (Some doc, []).
Proof. split; [vm_compute; reflexivity | eexists; vm_compute; reflexivity]. Qed.

Lemma py_mul_non_number (w s t : pyval) :
  as_num w = None -> py_mul w s = Ok t -> as_num t = None.
Proof.
  intros Hw. unfold py_mul. rewrite Hw.
  destruct w; try discriminate; destruct (as_num s) as [[n|f]|]; try discriminate.
  all: destruct (repeat_count n); cbn [bind]; [intros [= <-]; reflexivity | discriminate].
Qed.

Lemma half_extent_non_number (w s : pyval) :
  as_num w = None -> exists e, half_extent w s = Raise e.
Proof.
  intros Hw. unfold half_extent.
  destruct (py_mul w s) as [t|e] eqn:E; cbn [bind]; [|eauto].
  apply (py_mul_non_number w s t Hw) in E.
  unfold py_truediv. rewrite E. cbn [bind]. eauto.
Qed.

(** A display whose width or height is not a number cannot be added to
    any box. *)
Lemma grow_non_number (b : box) (kv : list (string * pyval)) :
  as_num (field "width" (PInt 0) kv) = None
  \/ as_num (field "height" (PInt 0) kv) = None ->
  exists e, grow b kv = Raise e.
Proof.
  intros H. destruct b as [[[min_x min_y] max_x] max_y]. unfold grow.
  destruct (v <- get _ "x" _ ;; py_abs v) as [sx|]; cbn [bind]; [|eauto].
  destruct (v <- get _ "y" _ ;; py_abs v) as [sy|]; cbn [bind]; [|eauto].
  destruct H as [H | H].
  - destruct (half_extent_non_number _ sx H) as [e ->]. cbn [bind]. eauto.
  - destruct (half_extent _ sx); cbn [bind]; [|eauto].
    destruct (half_extent_non_number _ sy H) as [e ->]. cbn [bind]. eauto.
Qed.

Lemma accumulate_stops (kv : list (string * pyval)) (l : list pyval) :
  In (PDict kv) l ->
  (forall b, exists e, grow b kv = Raise e) ->
  forall b, exists e, accumulate b l = Raise e.
Proof.
  intros Hin Hgrow. induction l as [|d l IH]; [contradiction|].
  intros b. cbn [accumulate].
  destruct d as [ | | | | | |kv0]; eauto.
  destruct (grow b kv0) as [b'|e] eqn:E; cbn [bind]; [|eauto].
  destruct Hin as [[= ->] | Hin].
  - destruct (Hgrow b) as [e He]. congruence.
  - apply IH, Hin.
Qed.

(** X13. The bounds are taken outside the [try]: one visible display whose
    width or height is not a number makes the conversion of the whole
    canvas raise, whatever its kind and whatever the other displays are.
    No document is returned and no warning is printed. *)
Theorem geometry_failure_aborts_canvas
    (kv dkv : list (string * pyval)) (ds : list pyval) (idx : Z) :
  field "displays" (PList []) kv = PList ds ->
  Forall is_dict ds ->
  In (PDict dkv) ds ->
  visible (PDict dkv) = true ->
  as_num (field "width" (PInt 0) dkv) = None
  \/ as_num (field "height" (PInt 0) dkv) = None ->
  exists e, convert_canvas_to_svg (PDict kv) idx = Raise e.
Proof.
  intros Hds Hdict Hin Hv Hsize.
  rewrite (convert_canvas_to_svg_phases kv ds idx Hds).
  destruct ds as [|d0 ds0]; [contradiction|].
  rewrite (bounds_loop_visible _ Hdict).
  destruct (accumulate_stops dkv (filter visible (d0 :: ds0))) with (b := empty_box)
    as [e ->].
  - apply filter_In. split; assumption.
  - intros b. now apply grow_non_number.
  - cbn [bind]. eauto.
Qed.

Lemma geometry_failure_aborts_canvas_witness :
  exists e,
    convert_canvas_to_svg
      (PDict [("displays",
               PList [sample_rect; PDict [("type", PStr "NOTE"); ("width", PStr "wide")]])]) 0
    = Raise e.
Proof.
  apply (geometry_failure_aborts_canvas
           [("displays",
             PList [sample_rect; PDict [("type", PStr "NOTE"); ("width", PStr "wide")]])]
           [("type", PStr "NOTE"); ("width", PStr "wide")]
           [sample_rect; PDict [("type", PStr "NOTE"); ("width", PStr "wide")]]
           0 eq_refl).
  - repeat constructor.
  - right. left. reflexivity.
  - reflexivity.
  - left. reflexivity.
Defined.

(** A document is never empty: it is the header around at least one
    element. *)
Lemma convert_canvas_to_svg_document (canvas : pyval) (idx : Z)
    (doc : string) (warnings : list warning) :
  convert_canvas_to_svg canvas idx = Ok (Some doc, warnings) ->
  exists vx vy vw vh title el els,
    doc = svg_document vx vy vw vh idx title (el :: els).
Proof.
  unfold convert_canvas_to_svg.
  destruct (get canvas "displays" (PList [])) as [displays|]; cbn [bind]; [|discriminate].
  destruct (truthy displays); cbn [negb]; [|discriminate].
  destruct (iter displays) as [ds|]; cbn [bind]; [|discriminate].
  destruct (bounds_loop empty_box ds) as [[[[min_x min_y] max_x] max_y]|];
    cbn [bind]; [|discriminate].
  destruct (py_eq min_x (PFloat float_inf)); [discriminate|].
  destruct (py_sub min_x (PInt 2)) as [left|]; cbn [bind]; [|discriminate].
  destruct (py_sub min_y (PInt 2)) as [top|]; cbn [bind]; [|discriminate].
  destruct (py_add max_x (PInt 2)) as [right|]; cbn [bind]; [|discriminate].
  destruct (py_add max_y (PInt 2)) as [bottom|]; cbn [bind]; [|discriminate].
  destruct (py_sub right left) as [vw|]; cbn [bind]; [|discriminate].
  destruct (py_sub bottom top) as [vh|]; cbn [bind]; [|discriminate].
  destruct (sorted ds _) as [sd|]; cbn [bind]; [|discriminate].
  destruct (render_loop sd [] []) as [[elements stderr]|]; cbn [bind]; [|discriminate].
  destruct elements as [|el els]; [discriminate|].
  destruct (get canvas "title" (PStr "untitled")) as [title|]; cbn [bind]; [|discriminate].
  intros [= <- _]. repeat eexists.
Qed.

Lemma document_is_truthy (canvas : pyval) (idx : Z) (doc : string) (warnings : list warning) :
  convert_canvas_to_svg canvas idx = Ok (Some doc, warnings) ->
  truthy (PStr doc) = true.
Proof.
  intros H.
  destruct (convert_canvas_to_svg_document _ _ _ _ H)
    as (vx & vy & vw & vh & title & el & els & ->).
  reflexivity.
Qed.

(** ** The driver *)

(** What one turn of the loop leaves behind when it completes: the file
    and the warnings of the canvas. *)
Lemma loop_body_completes (i : Z) (canvas : pyval) :
  snd (loop_body i canvas) = Ok tt ->
  written (fst (loop_body i canvas)) = canvas_files (canvas_path i) i canvas
  /\ stderr (fst (loop_body i canvas)) = canvas_warnings i canvas.
Proof.
  unfold loop_body, canvas_files, canvas_warnings.
  destruct (canvas_report i canvas) as [line|]; [|discriminate].
  destruct (convert_canvas_to_svg canvas i) as [[[doc|] warnings]|] eqn:E;
    [| split; reflexivity | discriminate].
  rewrite (document_is_truthy _ _ _ _ E). split; reflexivity.
Qed.

(** A turn that raises has written nothing. *)
Lemma loop_body_raises (i : Z) (canvas : pyval) (e : exn) :
  snd (loop_body i canvas) = Raise e ->
  written (fst (loop_body i canvas)) = [].
Proof.
  unfold loop_body.
  destruct (canvas_report i canvas) as [line|]; [|reflexivity].
  destruct (convert_canvas_to_svg canvas i) as [[[doc|] warnings]|] eqn:E;
    try reflexivity; try discriminate.
  rewrite (document_is_truthy _ _ _ _ E). discriminate.
Qed.

Lemma main_loop_completes (canvases : list pyval) :
  forall i,
    snd (main_loop i canvases) = Ok tt ->
    written (fst (main_loop i canvases)) = files_from i canvases
    /\ stderr (fst (main_loop i canvases)) = warnings_from i canvases.
Proof.
  induction canvases as [|canvas rest IH]; intros i; [split; reflexivity|].
  cbn [main_loop files_from warnings_from].
  pose proof (loop_body_completes i canvas) as Hbody.
  destruct (loop_body i canvas) as [fx [[]|e]]; [|discriminate].
  specialize (IH (i + 1)).
  destruct (main_loop (i + 1) rest) as [fx' r]. cbn [fst snd] in *.
  intros Hr. destruct (Hbody eq_refl) as [Hw He], (IH Hr) as [Hw' He'].
  unfold and_then. cbn [written stderr]. now rewrite Hw, He, Hw', He'.
Qed.

(** The loop up to a canvas that raises: the files of the canvases before
    it, and its exception. *)
Lemma main_loop_stops (before after : list pyval) (canvas : pyval) (e : exn) :
  forall i,
    snd (main_loop i before) = Ok tt ->
    snd (loop_body (i + Z.of_nat (List.length before)) canvas) = Raise e ->
    snd (main_loop i (before ++ canvas :: after)) = Raise e
    /\ written (fst (main_loop i (before ++ canvas :: after))) = files_from i before.
Proof.
  induction before as [|c before IH]; intros i Hbefore Hraise.
  - cbn [app main_loop files_from List.length] in *.
    rewrite Z.add_0_r in Hraise.
    pose proof (loop_body_raises i canvas e Hraise) as Hw.
    destruct (loop_body i canvas) as [fx [[]|e']]; cbn [fst snd] in *;
      [discriminate | split; [exact Hraise | exact Hw]].
  - cbn [app main_loop files_from List.length] in *.
    pose proof (loop_body_completes i c) as Hbody.
    destruct (loop_body i c) as [fx [[]|e']]; [|discriminate].
    specialize (IH (i + 1)).
    replace (i + 1 + Z.of_nat (List.length before))
      with (i + Z.of_nat (S (List.length before))) in IH by lia.
    destruct (main_loop (i + 1) before) as [fx1 r1].
    destruct (main_loop (i + 1) (before ++ canvas :: after)) as [fx2 r2].
    cbn [fst snd] in *.
    destruct (IH Hbefore Hraise) as [Hr Hw], (Hbody eq_refl) as [Hw' _].
    unfold and_then. cbn [written]. now rewrite Hr, Hw, Hw'.
Qed.

Lemma loop_body_converts (i : Z) (canvas : pyval) :
  snd (loop_body i canvas) = Ok tt ->
  exists svg warnings, convert_canvas_to_svg canvas i = Ok (svg, warnings).
Proof.
  unfold loop_body.
  destruct (canvas_report i canvas) as [line|]; [|discriminate].
  destruct (convert_canvas_to_svg canvas i) as [[svg warnings]|]; [eauto | discriminate].
Qed.

(** After a conversion of canvas 1 that returned, the last step of [main]
    completes, and writes the document, if there is one, to the main
    path. *)
Lemma main_output_of_canvas_1 (canvases : list pyval) (c1 : pyval)
    (svg : option string) (warnings : list warning) :
  nth_error canvases 1 = Some c1 ->
  convert_canvas_to_svg c1 1 = Ok (svg, warnings) ->
  snd (main_output (PList canvases)) = None
  /\ written (fst (main_output (PList canvases))) = canvas_files main_path 1 c1
  /\ stderr (fst (main_output (PList canvases))) = canvas_warnings 1 c1.
Proof.
  intros Hnth Hconv. unfold main_output, item_1, canvas_files, canvas_warnings.
  rewrite Hnth, Hconv.
  destruct svg as [doc|]; [|repeat split].
  rewrite (document_is_truthy _ _ _ _ Hconv). repeat split.
Qed.

(** X14. On a project whose canvases all convert, [main] runs to its end
    and the main output is a second copy of the file of canvas 1: it is
    written exactly when [canvas_1.svg] is, with the same content, after
    all the files of the canvases.  Canvas 1 is converted twice, so its
    warnings are printed twice. *)
Theorem main_output_copies_canvas_1 (data c0 c1 : pyval) (rest : list pyval) :
  getitem data "canvas" = Ok (PList (c0 :: c1 :: rest)) ->
  snd (main_loop 0 (c0 :: c1 :: rest)) = Ok tt ->
  snd (main data) = None
  /\ written (fst (main data))
     = (canvas_files (canvas_path 0) 0 c0 ++ canvas_files (canvas_path 1) 1 c1
        ++ files_from 2 rest ++ canvas_files main_path 1 c1)%list
  /\ stderr (fst (main data))
     = (canvas_warnings 0 c0 ++ canvas_warnings 1 c1
        ++ warnings_from 2 rest ++ canvas_warnings 1 c1)%list.
Proof.
  intros Hget Hloop.
  destruct (main_loop_completes _ 0 Hloop) as [Hw He].
  assert (Hc1 : exists svg warnings, convert_canvas_to_svg c1 1 = Ok (svg, warnings)).
  { cbn [main_loop] in Hloop.
    destruct (loop_body 0 c0) as [fx0 [[]|]]; [|discriminate].
    pose proof (loop_body_converts (0 + 1) c1) as H1.
    destruct (loop_body (0 + 1) c1) as [fx1 [[]|]].
    - apply H1. reflexivity.
    - destruct (main_loop (0 + 1 + 1) rest); discriminate. }
  destruct Hc1 as (svg & warnings & Hc1).
  destruct (main_output_of_canvas_1 (c0 :: c1 :: rest) c1 svg warnings eq_refl Hc1)
    as (Ho & How & Hoe).
  unfold main. rewrite Hget. cbn [iter].
  destruct (main_loop 0 (c0 :: c1 :: rest)) as [fx [[]|]]; [|discriminate].
  destruct (main_output (PList (c0 :: c1 :: rest))) as [fx' r].
  cbn [fst snd] in *. unfold and_then. cbn [written stderr].
  rewrite Ho, Hw, He, How, Hoe. cbn [files_from warnings_from Z.add Pos.add].
  rewrite <- !app_assoc. repeat split.
Qed.

Lemma main_output_copies_canvas_1_witness :
  snd (main sample_project) = None
  /\ written (fst (main sample_project))
     = (canvas_files (canvas_path 0) 0 (PDict hidden_canvas)
        ++ canvas_files (canvas_path 1) 1 (PDict sample_canvas)
        ++ files_from 2 [] ++ canvas_files main_path 1 (PDict sample_canvas))%list
  /\ stderr (fst (main sample_project))
     = (canvas_warnings 0 (PDict hidden_canvas)
        ++ canvas_warnings 1 (PDict sample_canvas)
        ++ warnings_from 2 [] ++ canvas_warnings 1 (PDict sample_canvas))%list.
Proof.
  apply (main_output_copies_canvas_1 sample_project
           (PDict hidden_canvas) (PDict sample_canvas) []).
  - reflexivity.
  - vm_compute. reflexivity.
Defined.

(** X15. [main] needs two canvases.  On a project with fewer it never runs
    to its end: when every canvas converts, the files of the canvases are
    written, and then the subscript [data['canvas'][1]] raises
    [IndexError]. *)
Theorem main_needs_two_canvases (data : pyval) (canvases : list pyval) :
  getitem data "canvas" = Ok (PList canvases) ->
  (List.length canvases < 2)%nat ->
  (exists r, snd (main data) = Some r)
  /\ (snd (main_loop 0 canvases) = Ok tt ->
        snd (main data) = Some IndexError
        /\ written (fst (main data)) = files_from 0 canvases).
Proof.
  intros Hget Hlen.
  assert (Hout : main_output (PList canvases) = (quiet, Some IndexError)).
  { unfold main_output, item_1.
    destruct canvases as [|c0 [|c1 rest]]; cbn in Hlen; try lia; reflexivity. }
  unfold main. rewrite Hget. cbn [iter]. rewrite Hout.
  pose proof (main_loop_completes canvases 0) as Hloop.
  destruct (main_loop 0 canvases) as [fx [[]|e]]; cbn [fst snd] in *.
  - split; [eauto|]. intros _. split; [reflexivity|].
    unfold and_then, quiet. cbn [written]. rewrite app_nil_r. now apply Hloop.
  - split; [eauto | discriminate].
Qed.

Lemma main_needs_two_canvases_witness :
  snd (main (PDict [("canvas", PList [PDict sample_canvas])])) = Some IndexError
  /\ written (fst (main (PDict [("canvas", PList [PDict sample_canvas])])))
     = files_from 0 [PDict sample_canvas].
Proof.
  apply (main_needs_two_canvases (PDict [("canvas", PList [PDict sample_canvas])])
           [PDict sample_canvas] eq_refl).
  - cbn. lia.
  - vm_compute. reflexivity.
Defined.

(** X16. [main] stops at the first canvas that raises, in its report line
    or in its conversion: the files of the canvases before it are written,
    none for it, for the canvases after it, or for the main output. *)
Theorem main_stops_at_failing_canvas
    (data canvas : pyval) (before after : list pyval) (e : exn) :
  getitem data "canvas" = Ok (PList (before ++ canvas :: after)) ->
  snd (main_loop 0 before) = Ok tt ->
  snd (loop_body (Z.of_nat (List.length before)) canvas) = Raise e ->
  snd (main data) = Some (Builtin e)
  /\ written (fst (main data)) = files_from 0 before.
Proof.
  intros Hget Hbefore Hraise.
  destruct (main_loop_stops before after canvas e 0 Hbefore Hraise) as [Hr Hw].
  unfold main. rewrite Hget. cbn [iter].
  destruct (main_loop 0 (before ++ canvas :: after)) as [fx r].
  cbn [fst snd] in *. subst r. split; [reflexivity | exact Hw].
Qed.

Lemma main_stops_at_failing_canvas_witness :
  snd (main (PDict [("canvas",
                     PList [PDict sample_canvas;
                            PDict [("displays", PList [PDict [("width", PStr "wide")]])];
                            PDict sample_canvas])]))
  = Some (Builtin TypeError)
  /\ written (fst (main (PDict [("canvas",
                     PList [PDict sample_canvas;
                            PDict [("displays", PList [PDict [("width", PStr "wide")]])];
                            PDict sample_canvas])])))
     = files_from 0 [PDict sample_canvas].
Proof.
  apply (main_stops_at_failing_canvas
           (PDict [("canvas",
                    PList [PDict sample_canvas;
                           PDict [("displays", PList [PDict [("width", PStr "wide")]])];
                           PDict sample_canvas])])
           (PDict [("displays", PList [PDict [("width", PStr "wide")]])])
           [PDict sample_canvas] [PDict sample_canvas] TypeError eq_refl).
  - vm_compute. reflexivity.
  - vm_compute. reflexivity.
Defined.

(** The conversion reads two fields of a canvas, [displays] and [title]. *)
Lemma convert_ignores_extend_info (kv : list (string * pyval)) (info : pyval) (idx : Z) :
  convert_canvas_to_svg (PDict (("extendInfo", info) :: kv)) idx
  = convert_canvas_to_svg (PDict kv) idx.
Proof. reflexivity. Qed.

Lemma canvas_report_with_type (kv : list (string * pyval)) (ty : pyval) (i : Z) (line : string) :
  canvas_report i (PDict kv) = Ok line ->
  exists line', canvas_report i (PDict (("extendInfo", PDict [("type", ty)]) :: kv)) = Ok line'.
Proof.
  unfold canvas_report. intros H.
  set (typed := PDict (("extendInfo", PDict [("type", ty)]) :: kv)).
  replace (get typed "extendInfo" (PDict [])) with (Ok (PDict [("type", ty)]))
    by reflexivity.
  cbn [bind].
  replace (get (PDict [("type", ty)]) "type" (PStr "2d")) with (Ok ty) by reflexivity.
  cbn [bind].
  replace (get typed "title" (PStr ("canvas_" ++ str_of_int i)))
    with (get (PDict kv) "title" (PStr ("canvas_" ++ str_of_int i))) by reflexivity.
  rewrite get_dict in H. cbn [bind] in H.
  destruct (get (field "extendInfo" (PDict []) kv) "type" (PStr "2d")); cbn [bind] in H;
    [|discriminate].
  destruct (get (PDict kv) "title" _); cbn [bind] in *; [|discriminate].
  replace (get typed "displays" (PList []))
    with (get (PDict kv) "displays" (PList [])) by reflexivity.
  destruct (get (PDict kv) "displays" _) as [displays|]; cbn [bind] in *; [|discriminate].
  destruct (ds <- iter displays ;; visible_count ds); cbn [bind] in *; [|discriminate].
  destruct (len displays); cbn [bind] in *; [|discriminate].
  eexists. reflexivity.
Qed.

(** X17. The type of a canvas is printed and nothing more: a canvas that
    [main] processes is processed all the same under any declared type
    (["3d"] as well as ["2d"]), with the same file and the same warnings. *)
Theorem canvas_type_is_not_a_filter (kv : list (string * pyval)) (ty : pyval) (i : Z) :
  let canvas := PDict kv in
  let typed := PDict (("extendInfo", PDict [("type", ty)]) :: kv) in
  snd (loop_body i canvas) = Ok tt ->
  snd (loop_body i typed) = Ok tt
  /\ written (fst (loop_body i typed)) = written (fst (loop_body i canvas))
  /\ stderr (fst (loop_body i typed)) = stderr (fst (loop_body i canvas)).
Proof.
  intros canvas typed Hok.
  assert (Htyped : snd (loop_body i typed) = Ok tt).
  { revert Hok. unfold loop_body, typed, canvas.
    rewrite convert_ignores_extend_info.
    destruct (canvas_report i (PDict kv)) as [line|] eqn:E; [|discriminate].
    destruct (canvas_report_with_type kv ty i line E) as [line' ->].
    destruct (convert_canvas_to_svg (PDict kv) i) as [[[doc|] w]|]; try discriminate;
      try reflexivity.
    destruct (truthy (PStr doc)); reflexivity. }
  split; [exact Htyped|].
  destruct (loop_body_completes i canvas Hok) as [-> ->].
  destruct (loop_body_completes i typed Htyped) as [-> ->].
  unfold canvas_files, canvas_warnings, typed, canvas.
  rewrite convert_ignores_extend_info. split; reflexivity.
Qed.

Lemma canvas_type_is_not_a_filter_witness :
  snd (loop_body 1 (PDict (("extendInfo", PDict [("type", PStr "3d")]) :: sample_canvas)))
  = Ok tt.
Proof.
  apply (canvas_type_is_not_a_filter sample_canvas (PStr "3d") 1).
  vm_compute. reflexivity.
Defined.
